(** * pmix: spreadsheet cells and worksheets

    A shallow embedding of [pmix/cell.py] and [pmix/worksheet.py] and the
    properties of cell normalisation, worksheet dimensions, row and column
    edits, column access, paired-column iteration and CSV export.

    Python objects are embedded as the inductive [pyobj]; exceptions are
    explicit ([result]); the mutable row lists of a worksheet live in a
    store ([heap]) so that two entries of [Worksheet.data] may be the same
    list object; generators are embedded by their trace (the items yielded
    and the way the iteration ends). *)

From Stdlib Require Import ZArith QArith Floats.SpecFloat Ascii String Lia.
From stdpp Require Import base list strings gmap pretty.
Close Scope Q_scope.

(** ** Python objects *)

(** A Python [float] is an IEEE 754 binary number: [S754_finite s m e] is
    [(-1)^s * m * 2^e]. *)
Definition float := spec_float.

Inductive pyobj :=
| VNone
| VBool (b : bool)
| VInt (z : Z)
| VFloat (f : float)
| VStr (s : string)
| VDate (year month day : Z)
| VTime (hour minute second : Z)
| VDateTime (year month day hour minute second : Z).

Inductive exn_class :=
| TypeError | ValueError | OverflowError | AttributeError
| KeyError | IndexError | SpreadsheetError | XLDateError | StopIteration.

(** A raised exception: its class and the argument it was built with. *)
Inductive exn := Exc (cls : exn_class) (arg : pyobj).

Inductive result (A : Type) :=
| Ok (a : A)
| Raise (e : exn).
Arguments Ok {A} a.
Arguments Raise {A} e.

#[global] Instance result_ret : MRet result := λ A a, Ok a.
#[global] Instance result_bind : MBind result := λ A B f m,
  match m with Ok a => f a | Raise e => Raise e end.

Definition is_ok {A} (r : result A) : bool :=
  match r with Ok _ => true | Raise _ => false end.

(** The class of the exception a computation ends with, if any. *)
Definition raised {A} (r : result A) : option exn_class :=
  match r with Ok _ => None | Raise (Exc c _) => Some c end.

(** ** Strings *)

Definition nl : string := String "010"%char EmptyString.

(** [str.format] with automatically numbered fields: each [{}] of the
    template is replaced by the next argument, arguments left over are
    ignored, a template without braces is returned as it is.  A field with
    no argument left raises [IndexError]; a single brace raises
    [ValueError].  The templates of this program contain [{}] fields only. *)
Fixpoint format (template : string) (args : list string) : result string :=
  match template with
  | EmptyString => Ok EmptyString
  | String c rest =>
      if Ascii.eqb c "{"%char then
        match rest with
        | String c' rest' =>
            if Ascii.eqb c' "}"%char then
              match args with
              | a :: args' => s ← format rest' args'; Ok (a +:+ s)
              | [] => Raise (Exc IndexError
                        (VStr "Replacement index out of range for positional args tuple"))
              end
            else Raise (Exc ValueError (VStr "unsupported format field"))
        | EmptyString =>
            Raise (Exc ValueError (VStr "Single '{' encountered in format string"))
        end
      else if Ascii.eqb c "}"%char then
        Raise (Exc ValueError (VStr "Single '}' encountered in format string"))
      else s ← format rest args; Ok (String c s)
  end.

(** Code points below 256 that [str.strip] removes. *)
Definition is_space (c : ascii) : bool :=
  let n := nat_of_ascii c in
  ((9 <=? n) && (n <=? 13)) || ((28 <=? n) && (n <=? 32))
  || (n =? 133) || (n =? 160).

Fixpoint lstrip (s : string) : string :=
  match s with
  | EmptyString => EmptyString
  | String c rest => if is_space c then lstrip rest else s
  end.

Fixpoint rstrip (s : string) : string :=
  match s with
  | EmptyString => EmptyString
  | String c rest =>
      match rstrip rest with
      | EmptyString => if is_space c then EmptyString else String c EmptyString
      | rest' => String c rest'
      end
  end.

Definition strip (s : string) : string := rstrip (lstrip s).

(** Zero-padded decimal, as in [%02d] and [%04d]. *)
Definition zero_pad (width : nat) (z : Z) : string :=
  let digits := pretty (Z.abs z) in
  let pad := String.concat "" (replicate (width - String.length digits) "0") in
  (if (z <? 0)%Z then "-" else "") +:+ pad +:+ digits.

(** ** Floats and integers *)

(** [int(f)]: truncation towards zero; NaN and the infinities have none. *)
Definition float_trunc (f : float) : result Z :=
  match f with
  | S754_nan =>
      Raise (Exc ValueError (VStr "cannot convert float NaN to integer"))
  | S754_infinity _ =>
      Raise (Exc OverflowError (VStr "cannot convert float infinity to integer"))
  | S754_zero _ => Ok 0%Z
  | S754_finite s m e =>
      let mag := Z.shiftl (Z.pos m) e in
      Ok (if s then (- mag)%Z else mag)
  end.

(** [z == f] for an [int] and a [float]: Python compares the two numbers
    exactly, without rounding the integer. *)
Definition int_eq_float (z : Z) (f : float) : bool :=
  match f with
  | S754_zero _ => (z =? 0)%Z
  | S754_finite s m e =>
      let n := if s then Z.neg m else Z.pos m in
      if (0 <=? e)%Z then (z =? n * 2 ^ e)%Z else (z * 2 ^ (- e) =? n)%Z
  | S754_infinity _ | S754_nan => false
  end.

(** ** The calendar types of [datetime] *)

Definition is_leap (y : Z) : bool :=
  ((y mod 4 =? 0) && (negb (y mod 100 =? 0) || (y mod 400 =? 0)))%Z.

Definition days_in_month (y m : Z) : Z :=
  if (m =? 2)%Z then (if is_leap y then 29 else 28)%Z
  else if ((m =? 4) || (m =? 6) || (m =? 9) || (m =? 11))%Z then 30%Z
  else 31%Z.

Definition valid_date (y m d : Z) : bool :=
  ((1 <=? y) && (y <=? 9999) && (1 <=? m) && (m <=? 12)
   && (1 <=? d) && (d <=? days_in_month y m))%Z.

Definition valid_time (h mi s : Z) : bool :=
  ((0 <=? h) && (h <=? 23) && (0 <=? mi) && (mi <=? 59)
   && (0 <=? s) && (s <=? 59))%Z.

Definition out_of_range : exn := Exc ValueError (VStr "value is out of range").

(** [datetime.time(h, mi, s)] *)
Definition datetime_time (h mi s : Z) : result pyobj :=
  if valid_time h mi s then Ok (VTime h mi s) else Raise out_of_range.

(** [datetime.date(y, m, d)] *)
Definition datetime_date (y m d : Z) : result pyobj :=
  if valid_date y m d then Ok (VDate y m d) else Raise out_of_range.

(** [datetime.datetime(y, m, d, h, mi, s)] *)
Definition datetime_datetime (y m d h mi s : Z) : result pyobj :=
  if valid_date y m d && valid_time h mi s
  then Ok (VDateTime y m d h mi s) else Raise out_of_range.

(** The six fields [xlrd.xldate_as_tuple] returns. *)
Definition date_tuple : Type := Z * Z * Z * Z * Z * Z.

(** ** Library functions taken as given

    Three functions of the Python runtime and of [xlrd] are parameters of
    the development: [repr] of a float (the shortest decimal that reads
    back), [int] of a [str], and [xlrd.xldate_as_tuple], which decodes a
    raw date number against a date mode or raises an [XLDateError]. *)
Class Runtime := {
  float_repr : float → string;
  int_of_str : string → result Z;
  xldate_as_tuple : pyobj → Z → result date_tuple
}.

Definition bool_to_Z (b : bool) : Z := if b then 1%Z else 0%Z.

(** [isinstance(v, int)], with the integer that [v] is ([bool] is a
    subclass of [int]: [True] is 1 and [False] is 0). *)
Definition isinstance_int (v : pyobj) : option Z :=
  match v with
  | VInt z => Some z
  | VBool b => Some (bool_to_Z b)
  | _ => None
  end.

(** [int(v)] *)
Definition py_int `{Runtime} (v : pyobj) : result Z :=
  match v with
  | VInt z => Ok z
  | VBool b => Ok (bool_to_Z b)
  | VFloat f => float_trunc f
  | VStr s => int_of_str s
  | _ => Raise (Exc TypeError
           (VStr "int() argument must be a string, a bytes-like object or a real number"))
  end.

(** [z == v] for an [int] [z] *)
Definition py_eq_int (z : Z) (v : pyobj) : bool :=
  match v with
  | VInt z' => (z =? z')%Z
  | VBool b => (z =? bool_to_Z b)%Z
  | VFloat f => int_eq_float z f
  | _ => false
  end.

(** [v.strip()] *)
Definition py_strip (v : pyobj) : result pyobj :=
  match v with
  | VStr s => Ok (VStr (strip s))
  | _ => Raise (Exc AttributeError (VStr "object has no attribute 'strip'"))
  end.

(** [str(v)] *)
Definition py_str `{Runtime} (v : pyobj) : string :=
  let iso_date y m d := zero_pad 4 y +:+ "-" +:+ zero_pad 2 m +:+ "-" +:+ zero_pad 2 d in
  let iso_time h mi s := zero_pad 2 h +:+ ":" +:+ zero_pad 2 mi +:+ ":" +:+ zero_pad 2 s in
  match v with
  | VNone => "None"
  | VBool b => if b then "True" else "False"
  | VInt z => pretty z
  | VFloat f => float_repr f
  | VStr s => s
  | VDate y m d => iso_date y m d
  | VTime h mi s => iso_time h mi s
  | VDateTime y m d h mi s => iso_date y m d +:+ " " +:+ iso_time h mi s
  end.

(** [l[i]] for a list or a tuple ([kind] names which in the message) and
    an [int]: a negative index counts from the end. *)
Definition py_getitem {A} (kind : string) (l : list A) (i : Z) : result A :=
  let n := Z.of_nat (length l) in
  let j := if (i <? 0)%Z then (i + n)%Z else i in
  let out_of_range := Exc IndexError (VStr (kind +:+ " index out of range")) in
  if ((0 <=? j) && (j <? n))%Z then
    match l !! Z.to_nat j with
    | Some x => Ok x
    | None => Raise out_of_range
    end
  else Raise out_of_range.

(** [t.index(x)] for a tuple of strings: the first position of [x]. *)
Fixpoint index_of (x : string) (t : list string) : option nat :=
  match t with
  | [] => None
  | y :: t' => if String.eqb y x then Some 0 else S <$> index_of x t'
  end.

(** [headers.index(x)] for any object [x]: only a [str] equals a header. *)
Definition tuple_index (headers : list string) (x : pyobj) : result Z :=
  match x with
  | VStr s =>
      match index_of s headers with
      | Some n => Ok (Z.of_nat n)
      | None => Raise (Exc ValueError (VStr "tuple.index(x): x not in tuple"))
      end
  | _ => Raise (Exc ValueError (VStr "tuple.index(x): x not in tuple"))
  end.

(** A list comprehension whose element expression may raise. *)
Fixpoint map_result {A B} (f : A → result B) (l : list A) : result (list B) :=
  match l with
  | [] => Ok []
  | x :: l' => y ← f x; ys ← map_result f l'; Ok (y :: ys)
  end.

(** ** xlrd: raw cells and sheets *)

Module xlrd.
Definition XL_CELL_EMPTY : Z := 0.
Definition XL_CELL_TEXT : Z := 1.
Definition XL_CELL_NUMBER : Z := 2.
Definition XL_CELL_DATE : Z := 3.
Definition XL_CELL_BOOLEAN : Z := 4.
Definition XL_CELL_ERROR : Z := 5.
Definition XL_CELL_BLANK : Z := 6.

(** A raw cell: its type tag and its payload (a [str] for text, a [float]
    for numbers and dates, an [int] for booleans and error codes). *)
Record Cell := mkCell { ctype : Z; value : pyobj }.

(** A raw sheet: [nrows] is the length of [rows], [row i] its [i]-th
    element. *)
Record Sheet := mkSheet { name : string; rows : list (list Cell) }.
End xlrd.

(** ** cell.py *)

Record Cell := mkCell { value : pyobj; highlight : option string }.

(** [Cell(value)]; [Cell()] is [Cell_init VNone]. *)
Definition Cell_init (v : pyobj) : Cell := {| value := v; highlight := None |}.

(** [Cell.is_blank] *)
Definition is_blank (self : Cell) : bool :=
  match value self with
  | VNone => true
  | VStr s => String.eqb s ""
  | _ => false
  end.

(** [Cell.__str__] *)
Definition cell_str `{Runtime} (self : Cell) : string :=
  match value self with
  | VNone => ""
  | v => py_str v
  end.

Definition error_cell_msg : string :=
  "Error cell found. Please correct or erase error cell from "
  +:+ "file and try again." +:+ nl +:+ nl
  +:+ "Error cells are likely to be one of"
  +:+ " the following: #N/A, #NULL!, #DIV/0!, #VALUE!, #REF!, "
  +:+ "#NAME?, #NUM!, #GETTING_DATA".

Definition unhandled_cell_msg : string :=
  "Unhandled cell exception." +:+ nl +:+ "Type: {}" +:+ nl +:+ "Value: {}".

(** [Cell.cell_value] *)
Definition cell_value `{Runtime} (cell : xlrd.Cell) (datemode : option Z)
    (stripstr : bool) : result pyobj :=
  let ctype := xlrd.ctype cell in
  let raw := xlrd.value cell in
  if (ctype =? xlrd.XL_CELL_BOOLEAN)%Z then
    Ok (VBool (if py_eq_int 1 raw then true else false))
  else if (ctype =? xlrd.XL_CELL_EMPTY)%Z then
    Ok VNone
  else if (ctype =? xlrd.XL_CELL_TEXT)%Z then
    if stripstr then py_strip raw else Ok raw
  else if (ctype =? xlrd.XL_CELL_NUMBER)%Z then
    int_val ← py_int raw;
    Ok (if py_eq_int int_val raw then VInt int_val else raw)
  else if (ctype =? xlrd.XL_CELL_DATE)%Z then
    let datemode := match datemode with None => 1%Z | Some d => d end in
    '(y, mo, d, h, mi, s) ← xldate_as_tuple raw datemode;
    if ((y =? 0) && (mo =? 0) && (d =? 0))%Z then
      datetime_time h mi s
    else if ((h =? 0) && (mi =? 0) && (s =? 0))%Z then
      datetime_date y mo d
    else
      datetime_datetime y mo d h mi s
  else if (ctype =? xlrd.XL_CELL_ERROR)%Z then
    msg ← format error_cell_msg [pretty ctype; py_str raw];
    Raise (Exc TypeError (VStr msg))
  else
    msg ← format unhandled_cell_msg [pretty ctype; py_str raw];
    Raise (Exc TypeError (VStr msg)).

(** [Cell.from_cell] *)
Definition from_cell `{Runtime} (cell : xlrd.Cell) (datemode : option Z)
    (stripstr : bool) : result Cell :=
  v ← cell_value cell datemode stripstr;
  Ok (Cell_init v).

(** ** worksheet.py *)

(** Row lists are mutable objects: [heap] holds them by address and a
    worksheet's [data] is the list of the addresses of its rows. *)
Abbreviation loc := nat (only parsing).
Abbreviation heap := (list (list Cell)) (only parsing).

Record Worksheet := mkWorksheet { name : string; data : list loc }.

Definition row_at (h : heap) (l : loc) : list Cell := default [] (h !! l).

(** Every row address of the worksheet is allocated. *)
Definition wf (h : heap) (ws : Worksheet) : Prop :=
  Forall (λ l, l < length h) (data ws).

(** [Worksheet.__init__]: [count] is the class attribute that numbers the
    sheets created without a name. *)
Definition Worksheet_init (data : option (list loc)) (name : option string)
    (count : nat) : Worksheet * nat :=
  let data := match data with None => [] | Some d => d end in
  match name with
  | None => (mkWorksheet ("sheet" +:+ pretty (S count)) data, S count)
  | Some n => (mkWorksheet n data, count)
  end.

(** [Worksheet.__iter__]: the rows, in order. *)
Definition rows (h : heap) (self : Worksheet) : list (list Cell) :=
  row_at h <$> data self.

(** [Worksheet.__len__] *)
Definition len (self : Worksheet) : nat := length (data self).

Definition inconsistent : exn :=
  Exc SpreadsheetError (VStr "Worksheet has inconsistent column counts").

(** [Worksheet.ncol] *)
Definition ncol (h : heap) (self : Worksheet) : result nat :=
  if bool_decide (0 < len self) then
    let lengths : gset nat := list_to_set (length <$> rows h self) in
    if bool_decide (1 < size lengths) then Raise inconsistent
    else
      match elements lengths with
      | n :: _ => Ok n
      | [] => Raise (Exc StopIteration VNone)
      end
  else Ok 0.

(** [Worksheet.dim] *)
Definition dim (h : heap) (self : Worksheet) : result (nat * nat) :=
  let nrow := len self in
  ncol ← ncol h self;
  Ok (nrow, ncol).

(** [Worksheet.from_sheet]: the loop over the raw rows, each converted row
    appended as a new list. *)
Fixpoint from_sheet_rows `{Runtime} (raw : list (list xlrd.Cell))
    (datemode : option Z) (worksheet : Worksheet) (h : heap)
    : result (Worksheet * heap) :=
  match raw with
  | [] => Ok (worksheet, h)
  | r :: raw' =>
      cur_row ← map_result (λ c, from_cell c datemode true) r;
      from_sheet_rows raw' datemode
        (mkWorksheet (name worksheet) (data worksheet ++ [length h]))
        (h ++ [cur_row])
  end.

Definition from_sheet `{Runtime} (sheet : xlrd.Sheet) (datemode : option Z)
    (h : heap) : result (Worksheet * heap) :=
  from_sheet_rows (xlrd.rows sheet) datemode
    (mkWorksheet (xlrd.name sheet) []) h.

Definition width_msg : string :=
  "Worksheet and supplied row width inconsistent ({} vs. {})".

(** A method that changes the worksheet is embedded by the state it leaves
    (the worksheet and the store) and the exception it raised, if any. *)
Definition outcome (S : Type) : Type := S * option exn.

(** [Worksheet.prepend_row]: an element of [row] is a [Cell] (left) or any
    other object (right), which is wrapped. *)
Definition prepend_row (row : option (list (Cell + pyobj)))
    (self : Worksheet) (h : heap) : outcome (Worksheet * heap) :=
  match row, data self with
  | None, l0 :: _ =>
      let new_row := (λ _, Cell_init VNone) <$> row_at h l0 in
      ((mkWorksheet (name self) (length h :: data self), h ++ [new_row]), None)
  | None, [] =>
      ((mkWorksheet (name self) (data self ++ [length h]),
        h ++ [[Cell_init VNone]]), None)
  | Some row, _ =>
      match ncol h self with
      | Raise e => ((self, h), Some e)
      | Ok n =>
          if negb (length row =? n) then
            match n' ← ncol h self;
                  format width_msg [pretty n'; pretty (length row)] with
            | Ok msg => ((self, h), Some (Exc SpreadsheetError (VStr msg)))
            | Raise e => ((self, h), Some e)
            end
          else
            let new_row :=
              (λ c, match c with inl c => c | inr v => Cell_init v end)
              <$> row in
            ((mkWorksheet (name self) (length h :: data self),
              h ++ [new_row]), None)
      end
  end.

(** [Worksheet.append_col]: the loop over [enumerate(self)]; [row.append]
    changes the row object in place. *)
Fixpoint append_col_loop (header : pyobj) (i : nat) (rest : list loc)
    (h : heap) : heap :=
  match rest with
  | [] => h
  | l :: rest' =>
      let c := if i =? 0 then Cell_init header else Cell_init VNone in
      append_col_loop header (S i) rest' (alter (λ row, row ++ [c]) l h)
  end.

Definition append_col (header : pyobj) (self : Worksheet) (h : heap)
    : outcome heap :=
  (append_col_loop header 0 (data self) h, None).

(** [Worksheet.column_headers] *)
Definition column_headers `{Runtime} (h : heap) (self : Worksheet)
    : list string :=
  match data self with
  | l0 :: _ => cell_str <$> row_at h l0
  | [] => []
  end.

(** *** Generators

    A generator is embedded by its trace: the items it yields, in order,
    and how the iteration ends ([None]: it is exhausted; [Some e]: the
    exception [e] is raised instead of a next item).  The store is read as
    it is when the iteration starts. *)
Definition trace (A : Type) : Type := list A * option exn.

Definition t_done {A} : trace A := ([], None).
Definition t_raise {A} (e : exn) : trace A := ([], Some e).
Definition t_yield {A} (x : A) (k : trace A) : trace A := (x :: k.1, k.2).

(** One loop body after the other: the second runs if the first ended
    without an exception. *)
Definition t_seq {A} (t1 t2 : trace A) : trace A :=
  match t1.2 with
  | Some e => t1
  | None => (t1.1 ++ t2.1, t2.2)
  end.

(** [Worksheet.column], the loop [for row in self: yield row[col]]. *)
Fixpoint column_loop (col : Z) (rs : list (list Cell)) : trace Cell :=
  match rs with
  | [] => t_done
  | row :: rs' =>
      match py_getitem "list" row col with
      | Ok c => t_yield c (column_loop col rs')
      | Raise e => t_raise e
      end
  end.

(** [Worksheet.column] *)
Definition column `{Runtime} (key : pyobj) (h : heap) (self : Worksheet)
    : trace Cell :=
  let col :=
    match key with
    | VStr _ =>
        match tuple_index (column_headers h self) key with
        | Ok i => Ok i
        | Raise (Exc ValueError _) => Raise (Exc KeyError key)
        | Raise e => Raise e
        end
    | _ =>
        match isinstance_int key with
        | Some z => Ok z
        | None => Raise (Exc TypeError key)
        end
    end in
  match col with
  | Ok col => column_loop col (rows h self)
  | Raise e => t_raise e
  end.

(** The dictionary [{'row': _, 'col': _, 'header': _, 'cell': _}] that
    [column_pairs] yields. *)
Module CellData.
Record t := mk { row : nat; col : Z; header : string; cell : Cell }.
End CellData.

(** [i if isinstance(i, int) else headers.index(i)] *)
Definition resolve_index (headers : list string) (i : pyobj) : result Z :=
  match isinstance_int i with
  | Some z => Ok z
  | None => tuple_index headers i
  end.

(** [Worksheet.column_pairs], the loop that resolves and deduplicates
    [indices] into [res]. *)
Fixpoint resolve_indices (headers : list string) (indices : list pyobj)
    (res : list Z) : result (list Z) :=
  match indices with
  | [] => Ok res
  | i :: rest =>
      item ← resolve_index headers i;
      resolve_indices headers rest
        (if existsb (Z.eqb item) res then res else res ++ [item])
  end.

(** [l.remove(x)] when [x in l]: the first occurrence goes. *)
Fixpoint remove_first (x : Z) (l : list Z) : list Z :=
  match l with
  | [] => []
  | y :: l' => if (y =? x)%Z then l' else y :: remove_first x l'
  end.

Definition cell_data (headers : list string) (i : nat) (row : list Cell)
    (j : Z) : result CellData.t :=
  hd ← py_getitem "tuple" headers j;
  c ← py_getitem "list" row j;
  Ok (CellData.mk i j hd c).

(** [Worksheet.column_pairs], the loop [for j in indices]. *)
Fixpoint pairs_of_row (headers : list string) (i : nat) (row : list Cell)
    (base_data : CellData.t) (indices : list Z)
    : trace (CellData.t * CellData.t) :=
  match indices with
  | [] => t_done
  | j :: js =>
      match cell_data headers i row j with
      | Ok other_data =>
          t_yield (base_data, other_data)
            (pairs_of_row headers i row base_data js)
      | Raise e => t_raise e
      end
  end.

(** [Worksheet.column_pairs], the loop [for i, row in enumerate(self)]. *)
Fixpoint pairs_loop (headers : list string) (base : Z) (indices : list Z)
    (start : Z) (i : nat) (rs : list (list Cell))
    : trace (CellData.t * CellData.t) :=
  match rs with
  | [] => t_done
  | row :: rs' =>
      if (Z.of_nat i <? start)%Z then
        pairs_loop headers base indices start (S i) rs'
      else
        match cell_data headers i row base with
        | Ok base_data =>
            t_seq (pairs_of_row headers i row base_data indices)
                  (pairs_loop headers base indices start (S i) rs')
        | Raise e => t_raise e
        end
  end.

(** [Worksheet.column_pairs] *)
Definition column_pairs `{Runtime} (indices : option (list pyobj))
    (base : option pyobj) (start : Z) (h : heap) (self : Worksheet)
    : trace (CellData.t * CellData.t) :=
  let headers := column_headers h self in
  let setup : result (option (Z * list Z)) :=
    indices ← match indices with
              | None => n ← ncol h self; Ok (Z.of_nat <$> seq 0 n)
              | Some l => resolve_indices headers l []
              end;
    match indices with
    | [] => Ok None
    | first :: others =>
        match base with
        | None => Ok (Some (first, others))
        | Some b =>
            base ← resolve_index headers b;
            Ok (Some (base, remove_first base indices))
        end
    end in
  match setup with
  | Raise e => t_raise e
  | Ok None => t_done
  | Ok (Some (base, indices)) =>
      pairs_loop headers base indices start 0 (rows h self)
  end.

(** ** The [csv] module, [excel] dialect

    [csv.writer] and [csv.reader] with the default dialect: delimiter [,],
    a double quote as quote character, quotes doubled inside a quoted
    field, minimal quoting, line terminator CR LF, no escape character,
    not strict.  The reader is the state machine of the module; the field
    size limit is taken to be large enough. *)
Module csv.
Definition CR : ascii := "013"%char.
Definition LF : ascii := "010"%char.
Definition delimiter : ascii := ","%char.
Definition quotechar : ascii := "034"%char.
Definition lineterminator : string := String CR (String LF EmptyString).

Definition is_nl (c : ascii) : bool := Ascii.eqb c CR || Ascii.eqb c LF.

(** A character that makes the writer quote the field. *)
Definition special (c : ascii) : bool :=
  Ascii.eqb c delimiter || Ascii.eqb c quotechar || is_nl c.

Fixpoint has_special (s : string) : bool :=
  match s with
  | EmptyString => false
  | String c rest => special c || has_special rest
  end.

(** The field's text with every quote character doubled. *)
Fixpoint doubled (s : string) : string :=
  match s with
  | EmptyString => EmptyString
  | String c rest =>
      if Ascii.eqb c quotechar
      then String quotechar (String quotechar (doubled rest))
      else String c (doubled rest)
  end.

(** The text of one field in the record ([quoted] forces the quotes). *)
Definition join_append (field : string) (quoted : bool) : string :=
  if quoted || has_special field
  then String quotechar (doubled field +:+ String quotechar EmptyString)
  else field.

(** How the writer reads a field that is not a [str]. *)
Definition field_text `{Runtime} (v : pyobj) : string :=
  match v with
  | VNone => ""
  | VStr s => s
  | v => py_str v
  end.

Fixpoint join (texts : list string) : string :=
  match texts with
  | [] => EmptyString
  | [t] => t
  | t :: ts => t +:+ String delimiter (join ts)
  end.

(** [writer.writerow]: the text added to the file.  A record that would
    be empty although it has a field is written as a quoted empty
    field. *)
Definition writerow `{Runtime} (row : list pyobj) : string :=
  let rec := join ((λ v, join_append (field_text v) false) <$> row) in
  (if negb (length row =? 0) && (String.length rec =? 0)
   then join_append "" true else rec) +:+ lineterminator.

Inductive ParserState :=
| START_RECORD | START_FIELD | IN_FIELD
| IN_QUOTED_FIELD | QUOTE_IN_QUOTED_FIELD | EAT_CRNL.

Record Reader := mkReader {
  state : ParserState;
  field : string;
  fields : list string
}.

Definition parse_reset : Reader := mkReader START_RECORD "" [].

Definition parse_save_field (self : Reader) (next : ParserState) : Reader :=
  mkReader next "" (fields self ++ [field self]).

Definition parse_add_char (self : Reader) (c : ascii) (next : ParserState)
    : Reader :=
  mkReader next (field self +:+ String c EmptyString) (fields self).

Definition set_state (self : Reader) (next : ParserState) : Reader :=
  mkReader next (field self) (fields self).

Definition csv_error (msg : string) : exn := Exc ValueError (VStr msg).

Definition start_field (self : Reader) (c : option ascii) : Reader :=
  match c with
  | None => parse_save_field self START_RECORD
  | Some c =>
      if is_nl c then parse_save_field self EAT_CRNL
      else if Ascii.eqb c quotechar then set_state self IN_QUOTED_FIELD
      else if Ascii.eqb c delimiter then parse_save_field self START_FIELD
      else parse_add_char self c IN_FIELD
  end.

(** [parse_process_char]; [None] is the end of the line. *)
Definition parse_process_char (self : Reader) (c : option ascii)
    : result Reader :=
  match state self with
  | START_RECORD =>
      match c with
      | None => Ok self
      | Some c' =>
          if is_nl c' then Ok (set_state self EAT_CRNL)
          else Ok (start_field self c)
      end
  | START_FIELD => Ok (start_field self c)
  | IN_FIELD =>
      match c with
      | None => Ok (parse_save_field self START_RECORD)
      | Some c =>
          if is_nl c then Ok (parse_save_field self EAT_CRNL)
          else if Ascii.eqb c delimiter
          then Ok (parse_save_field self START_FIELD)
          else Ok (parse_add_char self c IN_FIELD)
      end
  | IN_QUOTED_FIELD =>
      match c with
      | None => Ok self
      | Some c =>
          if Ascii.eqb c quotechar
          then Ok (set_state self QUOTE_IN_QUOTED_FIELD)
          else Ok (parse_add_char self c IN_QUOTED_FIELD)
      end
  | QUOTE_IN_QUOTED_FIELD =>
      match c with
      | None => Ok (parse_save_field self START_RECORD)
      | Some c =>
          if Ascii.eqb c quotechar
          then Ok (parse_add_char self c IN_QUOTED_FIELD)
          else if Ascii.eqb c delimiter
          then Ok (parse_save_field self START_FIELD)
          else if is_nl c then Ok (parse_save_field self EAT_CRNL)
          else Ok (parse_add_char self c IN_FIELD)
      end
  | EAT_CRNL =>
      match c with
      | None => Ok (set_state self START_RECORD)
      | Some c =>
          if is_nl c then Ok self
          else Raise (csv_error "new-line character seen in unquoted field")
      end
  end.

(** The characters of one line, in order. *)
Fixpoint process_line (self : Reader) (line : string) : result Reader :=
  match line with
  | EmptyString => Ok self
  | String c rest =>
      self' ← parse_process_char self (Some c);
      process_line self' rest
  end.

Definition at_record_start (self : Reader) : bool :=
  match state self with START_RECORD => true | _ => false end.

Definition in_quoted (self : Reader) : bool :=
  match state self with IN_QUOTED_FIELD => true | _ => false end.

(** The end of the input: a pending field closes the last record. *)
Definition end_of_input (self : Reader) (records : list (list string))
    : list (list string) :=
  if negb (String.length (field self) =? 0) || in_quoted self
  then records ++ [fields (parse_save_field self START_RECORD)]
  else records.

(** [list(reader)] over the lines the file yields: the characters of a
    line are followed by the end-of-line step, and a record is complete
    when that step leaves the state [START_RECORD]. *)
Fixpoint read_lines (self : Reader) (lines : list string)
    (records : list (list string)) : result (list (list string)) :=
  match lines with
  | [] => Ok (end_of_input self records)
  | line :: rest =>
      self' ← process_line self line;
      self'' ← parse_process_char self' None;
      if at_record_start self''
      then read_lines parse_reset rest (records ++ [fields self''])
      else read_lines self'' rest records
  end.

(** The lines a text file opened with [newline=''] yields: a line ends
    after LF, after CR LF, or after a CR that no LF follows, and keeps
    its ending; [cur] is the line read so far. *)
Fixpoint readlines (cur : string) (text : string) : list string :=
  match text with
  | EmptyString => if String.length cur =? 0 then [] else [cur]
  | String c rest =>
      let cur' := cur +:+ String c EmptyString in
      if Ascii.eqb c LF then cur' :: readlines "" rest
      else if Ascii.eqb c CR then
        match rest with
        | String c' rest' =>
            if Ascii.eqb c' LF
            then (cur' +:+ String LF EmptyString) :: readlines "" rest'
            else cur' :: readlines "" rest
        | EmptyString => [cur']
        end
      else readlines cur' rest
  end.

(** [list(csv.reader(f))] for a file [f] with the given text. *)
Definition reader (text : string) : result (list (list string)) :=
  read_lines parse_reset (readlines "" text) [].

(** *** The reader in one pass

    [feed] does the work of [read_lines] over [readlines] character by
    character: [line_ends c rest] says that a line ends after [c] when
    [rest] follows, and [partial] that the current line has a character
    already. *)
Definition line_ends (c : ascii) (rest : string) : bool :=
  Ascii.eqb c LF
  || (Ascii.eqb c CR
      && negb match rest with
              | String c' _ => Ascii.eqb c' LF
              | EmptyString => false
              end).

Definition end_of_line (self : Reader) (records : list (list string))
    : result (Reader * list (list string)) :=
  self' ← parse_process_char self None;
  Ok (if at_record_start self'
      then (parse_reset, records ++ [fields self'])
      else (self', records)).

Fixpoint feed (self : Reader) (records : list (list string))
    (partial : bool) (text : string) : result (list (list string)) :=
  match text with
  | EmptyString =>
      if partial then
        '(self', records') ← end_of_line self records;
        Ok (end_of_input self' records')
      else Ok (end_of_input self records)
  | String c rest =>
      self' ← parse_process_char self (Some c);
      if line_ends c rest then
        '(self'', records') ← end_of_line self' records;
        feed self'' records' false rest
      else feed self' records true rest
  end.
End csv.

(** Files by path, each with its text. *)
Definition filesystem := gmap string string.

(** The values [to_csv] hands to the writer for one row. *)
Definition csv_values `{Runtime} (strings : bool) (row : list Cell)
    : list pyobj :=
  if strings then (λ cell, VStr (cell_str cell)) <$> row
  else value <$> row.

(** [Worksheet.to_csv]: the file at [path] is created or truncated and
    receives one record per row. *)
Definition to_csv `{Runtime} (path : string) (strings : bool) (h : heap)
    (self : Worksheet) (fs : filesystem) : filesystem :=
  let text :=
    String.concat "" ((λ row, csv.writerow (csv_values strings row))
                      <$> rows h self) in
  <[path := text]> fs.

(** ** Reference notions the properties are stated with *)

(** The rational number a finite float is; NaN and the infinities are
    none. *)
Definition float_value (f : float) : option Q :=
  match f with
  | S754_zero _ => Some 0%Q
  | S754_finite s m e =>
      let n := if s then Z.neg m else Z.pos m in
      Some match e with
           | Z0 => (n # 1)%Q
           | Z.pos p => ((n * 2 ^ Z.pos p) # 1)%Q
           | Z.neg p => (n # 2 ^ p)%Q
           end
  | S754_infinity _ | S754_nan => None
  end.

(** Truncation of a rational towards zero. *)
Definition Qtruncate (q : Q) : Z := Z.quot (Qnum q) (Z.pos (Qden q)).

(** The type tags [cell_value] has a branch for. *)
Definition recognized (ctype : Z) : bool :=
  bool_decide (ctype ∈ [xlrd.XL_CELL_BOOLEAN; xlrd.XL_CELL_EMPTY;
                        xlrd.XL_CELL_TEXT; xlrd.XL_CELL_NUMBER;
                        xlrd.XL_CELL_DATE; xlrd.XL_CELL_ERROR]).

(** The three kinds of value a date cell normalises to. *)
Inductive date_category := TimeOnly | DateOnly | Combined.

Definition category (v : pyobj) : option date_category :=
  match v with
  | VTime _ _ _ => Some TimeOnly
  | VDate _ _ _ => Some DateOnly
  | VDateTime _ _ _ _ _ _ => Some Combined
  | _ => None
  end.

Definition date_part_zero (t : date_tuple) : bool :=
  let '(y, mo, d, _, _, _) := t in ((y =? 0) && (mo =? 0) && (d =? 0))%Z.

Definition time_part_zero (t : date_tuple) : bool :=
  let '(_, _, _, h, mi, s) := t in ((h =? 0) && (mi =? 0) && (s =? 0))%Z.

(** What [xlrd.xldate_as_tuple] promises of the tuple it returns: a time
    of day, with either no date at all or a date of the calendar. *)
Definition calendar_tuple (t : date_tuple) : bool :=
  let '(y, mo, d, h, mi, s) := t in
  (date_part_zero t || valid_date y mo d) && valid_time h mi s.

(** All rows of the worksheet have length [w]. *)
Definition rectangular (h : heap) (ws : Worksheet) (w : nat) : Prop :=
  Forall (λ row, length row = w) (rows h ws).

(** Some two rows differ in length. *)
Definition ragged (h : heap) (ws : Worksheet) : Prop :=
  ∃ r1 r2, r1 ∈ rows h ws ∧ r2 ∈ rows h ws ∧ length r1 ≠ length r2.

(** [col] is an index Python accepts for a sequence of length [n]. *)
Definition valid_index (n : nat) (col : Z) : bool :=
  ((- Z.of_nat n <=? col) && (col <? Z.of_nat n))%Z.

(** The position a valid index stands for. *)
Definition position (n : nat) (col : Z) : nat :=
  Z.to_nat (if (col <? 0)%Z then col + Z.of_nat n else col)%Z.

(** The cell at index [col] of each row. *)
Definition cells_at (col : Z) (rs : list (list Cell)) (cells : list Cell) : Prop :=
  Forall2 (λ row c, row !! position (length row) col = Some c) rs cells.

Definition index_error (kind : string) : exn :=
  Exc IndexError (VStr (kind +:+ " index out of range")).

(** ** A runtime to evaluate examples with

    [xldate_as_tuple] on four raw dates in date mode 1 (the 1904 system):
    midnight of day zero, noon of day zero, day one, and noon of day one.
    Floats print as [0.0] and no string reads as an integer: the examples
    do not depend on either. *)
Definition sample_xldate (v : pyobj) (datemode : Z) : result date_tuple :=
  let unknown := Raise (Exc XLDateError v) in
  if negb (datemode =? 1)%Z then unknown
  else match v with
       | VFloat (S754_zero _) => Ok (0, 0, 0, 0, 0, 0)%Z
       | VFloat (S754_finite false 1 (-1)) => Ok (0, 0, 0, 12, 0, 0)%Z
       | VFloat (S754_finite false 1 0) => Ok (1904, 1, 2, 0, 0, 0)%Z
       | VFloat (S754_finite false 3 (-1)) => Ok (1904, 1, 2, 12, 0, 0)%Z
       | _ => unknown
       end.

Definition sample_runtime : Runtime := {|
  float_repr := λ _, "0.0";
  int_of_str := λ s, Raise (Exc ValueError (VStr s));
  xldate_as_tuple := sample_xldate
|}.

(** The cell [append_col] adds to row [i]. *)
Definition new_col_cell (header : pyobj) (i : nat) : Cell :=
  if i =? 0 then Cell_init header else Cell_init VNone.

(** ** Worksheets to evaluate examples with *)

Definition text_cell (s : string) : Cell := Cell_init (VStr s).

(** Two rows, of one and of two cells. *)
Definition ragged_heap : heap :=
  [[text_cell "a"]; [text_cell "b"; text_cell "c"]].
Definition ragged_sheet : Worksheet := mkWorksheet "ragged" [0; 1].

(** No rows. *)
Definition empty_sheet : Worksheet := mkWorksheet "empty" [].

(** Three rows of three cells, the first with the headers A, B, C. *)
Definition abc_heap : heap :=
  [[text_cell "A"; text_cell "B"; text_cell "C"];
   [Cell_init (VInt 1); Cell_init (VInt 2); Cell_init (VInt 3)];
   [Cell_init (VInt 4); Cell_init VNone; Cell_init (VBool true)]].
Definition abc_sheet : Worksheet := mkWorksheet "abc" [0; 1; 2].

(** The states in which the reader expects a field. *)
Definition field_start (st : csv.ParserState) : Prop :=
  st = csv.START_RECORD ∨ st = csv.START_FIELD.

(** ** More of the source: truthiness, [repr], and notions for trimming *)

(** [bool(v)]; a float is false when it is a zero, and every date, time and
    datetime is true. *)
Definition py_bool (v : pyobj) : bool :=
  match v with
  | VNone => false
  | VBool b => b
  | VInt z => negb (z =? 0)%Z
  | VFloat (S754_zero _) => false
  | VFloat _ => true
  | VStr s => negb (String.eqb s "")
  | VDate _ _ _ | VTime _ _ _ | VDateTime _ _ _ _ _ _ => true
  end.

(** [Cell.__bool__] *)
Definition cell_bool (self : Cell) : bool := py_bool (value self).

Definition dquote : string := String "034"%char EmptyString.

Definition repr_template : string :=
  "<Worksheet(name=" +:+ dquote +:+ "{}" +:+ dquote +:+ "), dim={}>".

(** [str((a, b))] for a pair of integers. *)
Definition str_pair (p : nat * nat) : string :=
  "(" +:+ pretty p.1 +:+ ", " +:+ pretty p.2 +:+ ")".

(** [Worksheet.__repr__] *)
Definition Worksheet_repr (h : heap) (self : Worksheet) : result string :=
  d ← dim h self;
  format repr_template [name self; str_pair d].

(** Every character of [s] is one that [strip] removes. *)
Fixpoint all_space (s : string) : bool :=
  match s with
  | EmptyString => true
  | String c rest => is_space c && all_space rest
  end.

Definition starts_space (s : string) : bool :=
  match s with
  | EmptyString => false
  | String c _ => is_space c
  end.

Fixpoint ends_space (s : string) : bool :=
  match s with
  | EmptyString => false
  | String c EmptyString => is_space c
  | String _ rest => ends_space rest
  end.

(** [c if isinstance(c, Cell) else Cell(c)] *)
Definition as_cell (c : Cell + pyobj) : Cell :=
  match c with inl c => c | inr v => Cell_init v end.

(** The descriptors of the cells of row [i], in column order. *)
Definition descriptors (headers : list string) (i : nat) (row : list Cell)
    : list CellData.t :=
  imap (λ j '(hd, c), CellData.mk i (Z.of_nat j) hd c) (zip headers row).

(** The first descriptor of the row paired with each of the others. *)
Definition row_pairs (headers : list string) (i : nat) (row : list Cell)
    : list (CellData.t * CellData.t) :=
  match descriptors headers i row with
  | base_data :: others => (λ other_data, (base_data, other_data)) <$> others
  | [] => []
  end.

(** The exception of [tuple.index] for an object that is not in the
    tuple. *)
Definition not_in_tuple : exn :=
  Exc ValueError (VStr "tuple.index(x): x not in tuple").

(** The descriptor at position [b] paired with each of the others, in
    order. *)
Definition base_pairs (b : nat) (ds : list CellData.t)
    : list (CellData.t * CellData.t) :=
  match ds !! b with
  | Some base_data => (λ other_data, (base_data, other_data)) <$> delete b ds
  | None => []
  end.

(** A raw sheet of two rows: two texts, then a text with blanks around it
    and the number 6.0. *)
Definition sample_sheet : xlrd.Sheet :=
  xlrd.mkSheet "raw"
    [[xlrd.mkCell xlrd.XL_CELL_TEXT (VStr "name");
      xlrd.mkCell xlrd.XL_CELL_TEXT (VStr "n")];
     [xlrd.mkCell xlrd.XL_CELL_TEXT (VStr " a ");
      xlrd.mkCell xlrd.XL_CELL_NUMBER (VFloat (S754_finite false 3 1))]].

(** The same raw sheet with an error cell at the end of its first row. *)
Definition broken_sheet : xlrd.Sheet :=
  xlrd.mkSheet "broken"
    [[xlrd.mkCell xlrd.XL_CELL_TEXT (VStr "name");
      xlrd.mkCell xlrd.XL_CELL_ERROR (VInt 42)];
     [xlrd.mkCell xlrd.XL_CELL_TEXT (VStr " a ");
      xlrd.mkCell xlrd.XL_CELL_NUMBER (VFloat (S754_finite false 3 1))]].

(** One row object that stands at both places of a worksheet. *)
Definition shared_heap : heap := [[text_cell "a"]].
Definition shared_sheet : Worksheet := mkWorksheet "shared" [0; 0].

(** * Properties *)

Section Properties.
Context `{Runtime}.

(** ** Cell normalisation *)

Lemma shiftl_neg_exponent (m p : positive) :
  Z.shiftl (Z.pos m) (Z.neg p) = Z.quot (Z.pos m) (Z.pos (2 ^ p)).
Proof.
  rewrite Z.shiftl_div_pow2 by lia.
  rewrite Z.quot_div_nonneg by lia.
  by rewrite Pos2Z.inj_pow.
Qed.

(** [int] of a finite float is the truncation of its value. *)
Lemma float_trunc_value f q :
  float_value f = Some q → float_trunc f = Ok (Qtruncate q).
Proof.
  destruct f as [s| | |s m e]; simpl; try discriminate.
  - intros [= <-]. reflexivity.
  - intros [= <-]. f_equal. unfold Qtruncate.
    destruct e as [|p|p]; simpl Qnum; simpl Qden.
    + rewrite Z.shiftl_0_r, Z.quot_1_r. by destruct s.
    + rewrite Z.shiftl_mul_pow2, Z.quot_1_r by lia.
      destruct s; [|done]. by rewrite <- Z.mul_opp_l.
    + rewrite shiftl_neg_exponent.
      destruct s; [|done].
      change (Z.neg m) with (- Z.pos m)%Z. by rewrite Z.quot_opp_l by lia.
Qed.

(** The comparison of an integer with a finite float is the comparison of
    the two numbers. *)
Lemma int_eq_float_value z f q :
  float_value f = Some q → int_eq_float z f = Qeq_bool (inject_Z z) q.
Proof.
  destruct f as [s| | |s m e]; simpl; try discriminate.
  - intros [= <-]. unfold Qeq_bool; simpl. f_equal; lia.
  - intros [= <-]. unfold Qeq_bool.
    destruct e as [|p|p]; simpl Qnum; simpl Qden; simpl Z.leb; cbv iota.
    + f_equal; lia.
    + f_equal; lia.
    + change (- Z.neg p)%Z with (Z.pos p). rewrite Pos2Z.inj_pow. f_equal; lia.
Qed.

(** C1, as amended.  For every raw numeric cell whose raw float is finite
    (it stands for a rational [q]), [cell_value] returns the integer
    truncation of the float when that truncation equals the float, and the
    raw float unchanged otherwise; [from_cell] wraps that value in a
    cell. *)
Theorem numeric_cell_value (f : float) (q : Q) (datemode : option Z)
    (stripstr : bool) :
  float_value f = Some q →
  let cell := xlrd.mkCell xlrd.XL_CELL_NUMBER (VFloat f) in
  let v := if Qeq_bool (inject_Z (Qtruncate q)) q
           then VInt (Qtruncate q) else VFloat f in
  cell_value cell datemode stripstr = Ok v
  ∧ from_cell cell datemode stripstr = Ok (Cell_init v).
Proof.
  intros Hq cell v.
  assert (cell_value cell datemode stripstr = Ok v) as Hv.
  { unfold cell_value; simpl.
    rewrite (float_trunc_value _ _ Hq); simpl.
    by rewrite (int_eq_float_value _ _ _ Hq). }
  split; [done|]. unfold from_cell. by rewrite Hv.
Qed.

(** C2, as amended.  For every raw date cell the decoder accepts, with a
    calendar tuple [(y, mo, d, h, mi, s)]: the normalised value is the
    time [h:mi:s] when the date part is all zero; it is the date
    [y-mo-d] when the date part is not all zero and the time part is; it
    is the combined date and time otherwise.  Each value falls in exactly
    one of the three categories. *)
Theorem date_cell_value (raw : pyobj) (datemode : option Z) (stripstr : bool)
    (y mo d h mi s : Z) :
  let t := (y, mo, d, h, mi, s) in
  xldate_as_tuple raw (default 1%Z datemode) = Ok t →
  calendar_tuple t = true →
  ∃ v, cell_value (xlrd.mkCell xlrd.XL_CELL_DATE raw) datemode stripstr = Ok v
    ∧ match category v with
      | Some TimeOnly => date_part_zero t = true ∧ v = VTime h mi s
      | Some DateOnly =>
          date_part_zero t = false ∧ time_part_zero t = true
          ∧ v = VDate y mo d
      | Some Combined =>
          date_part_zero t = false ∧ time_part_zero t = false
          ∧ v = VDateTime y mo d h mi s
      | None => False
      end.
Proof.
  intros t Hdec Hcal. unfold cell_value; simpl.
  replace (match datemode with Some d0 => d0 | None => 1%Z end)
    with (default 1%Z datemode) by by destruct datemode.
  rewrite Hdec; simpl.
  unfold calendar_tuple, t in Hcal. simpl in Hcal.
  apply andb_true_iff in Hcal as [Hdate Htime].
  destruct ((y =? 0)%Z && (mo =? 0)%Z && (d =? 0)%Z) eqn:Hdz.
  - unfold datetime_time. rewrite Htime. eexists; split; [done|]. by simpl.
  - simpl in Hdate.
    destruct ((h =? 0)%Z && (mi =? 0)%Z && (s =? 0)%Z) eqn:Htz.
    + unfold datetime_date. rewrite Hdate. eexists; split; [done|]. by simpl.
    + unfold datetime_datetime. rewrite Hdate, Htime.
      eexists; split; [done|]. by simpl.
Qed.

Lemma format_error_cell_msg args : format error_cell_msg args = Ok error_cell_msg.
Proof. reflexivity. Qed.

Lemma format_unhandled_cell_msg a b :
  format unhandled_cell_msg [a; b]
  = Ok ("Unhandled cell exception." +:+ nl +:+ "Type: " +:+ a +:+ nl
        +:+ "Value: " +:+ b +:+ "").
Proof. reflexivity. Qed.

(** C3, what the code does.  For every raw cell with the error tag,
    whatever its raw value, [cell_value] raises a [TypeError] whose
    message is the fixed text [error_cell_msg]: the template has no
    replacement field, so the tag and the raw value handed to [format] do
    not reach the message. *)
Theorem error_cell_fixed_message (raw : pyobj) (datemode : option Z)
    (stripstr : bool) :
  cell_value (xlrd.mkCell xlrd.XL_CELL_ERROR raw) datemode stripstr
  = Raise (Exc TypeError (VStr error_cell_msg)).
Proof. reflexivity. Qed.

(** A raw cell with a tag the function does not know raises a [TypeError]
    too, and this message does carry the tag and the raw value. *)
Lemma unhandled_cell_message (ctype : Z) (raw : pyobj) (datemode : option Z)
    (stripstr : bool) :
  recognized ctype = false →
  cell_value (xlrd.mkCell ctype raw) datemode stripstr
  = Raise (Exc TypeError
      (VStr ("Unhandled cell exception." +:+ nl +:+ "Type: " +:+ pretty ctype
             +:+ nl +:+ "Value: " +:+ py_str raw +:+ ""))).
Proof.
  intros Hrec. unfold recognized in Hrec.
  apply bool_decide_eq_false in Hrec.
  unfold cell_value; simpl.
  repeat match goal with
  | |- context [(ctype =? ?k)%Z] =>
      destruct (Z.eqb_spec ctype k) as [->|_];
      [exfalso; apply Hrec; set_solver|]
  end.
  reflexivity.
Qed.

(** ** Dimensions *)

Lemma ncol_empty h ws : data ws = [] → ncol h ws = Ok 0.
Proof. intros Hd. unfold ncol, len. by rewrite Hd. Qed.

Lemma lengths_rectangular (rs : list (list Cell)) w :
  rs ≠ [] → Forall (λ row, length row = w) rs →
  list_to_set (length <$> rs) = ({[ w ]} : gset nat).
Proof.
  intros Hne Hall. apply set_eq. intros n.
  rewrite elem_of_list_to_set, list_elem_of_fmap, elem_of_singleton.
  split.
  - intros (r & -> & Hr). rewrite Forall_forall in Hall. by apply Hall.
  - intros ->. destruct rs as [|r rs']; [done|].
    exists r. split; [|by left]. symmetry. by apply Forall_inv in Hall.
Qed.

Lemma rows_nonempty h ws : data ws ≠ [] → rows h ws ≠ [].
Proof. unfold rows. by destruct (data ws). Qed.

Lemma len_pos ws : data ws ≠ [] → 0 < len ws.
Proof. unfold len. destruct (data ws); simpl; [done|lia]. Qed.

Lemma ncol_rectangular h ws w :
  data ws ≠ [] → rectangular h ws w → ncol h ws = Ok w.
Proof.
  intros Hne Hrect. unfold ncol.
  rewrite bool_decide_eq_true_2 by by apply len_pos.
  rewrite (lengths_rectangular _ w) by (by apply rows_nonempty || done).
  rewrite size_singleton, elements_singleton.
  by rewrite bool_decide_eq_false_2 by lia.
Qed.

Lemma ncol_ragged h ws : ragged h ws → ncol h ws = Raise inconsistent.
Proof.
  intros (r1 & r2 & H1 & H2 & Hne). unfold ncol.
  assert (data ws ≠ []) as Hd.
  { intros Hd. unfold rows in H1. rewrite Hd in H1. by apply elem_of_nil in H1. }
  rewrite bool_decide_eq_true_2 by by apply len_pos.
  rewrite bool_decide_eq_true_2; [done|].
  set (lengths := list_to_set (length <$> rows h ws) : gset nat).
  assert ({[length r1]} ∪ {[length r2]} ⊆ lengths) as Hsub.
  { subst lengths. intros n Hn. apply elem_of_list_to_set, list_elem_of_fmap.
    apply elem_of_union in Hn as [Hn|Hn]; apply elem_of_singleton in Hn;
      subst n; eauto. }
  apply subseteq_size in Hsub.
  rewrite size_union in Hsub by set_solver.
  rewrite !size_singleton in Hsub. lia.
Qed.

Lemma dim_empty h ws : data ws = [] → dim h ws = Ok (0, 0).
Proof.
  intros Hd. unfold dim. rewrite ncol_empty by done. unfold len. by rewrite Hd.
Qed.

Lemma dim_ragged h ws : ragged h ws → dim h ws = Raise inconsistent.
Proof. intros Hr. unfold dim. by rewrite ncol_ragged. Qed.

Lemma dim_rectangular h ws w :
  data ws ≠ [] → rectangular h ws w → dim h ws = Ok (len ws, w).
Proof. intros Hne Hrect. unfold dim. by rewrite (ncol_rectangular _ _ w). Qed.

(** C5.  [dim] returns [(0, 0)] for a worksheet with no rows; it raises
    the table-integrity error when two rows differ in length; it returns
    [(row count, L)] when there are rows and all have length [L]. *)
Theorem dim_cases (h : heap) (ws : Worksheet) :
  (data ws = [] → dim h ws = Ok (0, 0))
  ∧ (ragged h ws → dim h ws = Raise inconsistent)
  ∧ (∀ L, data ws ≠ [] → rectangular h ws L → dim h ws = Ok (len ws, L)).
Proof.
  split; [|split].
  - apply dim_empty.
  - apply dim_ragged.
  - intros L. apply dim_rectangular.
Qed.

(** ** Appending a column *)

Lemma row_at_alter_ne (f : list Cell → list Cell) h l l' :
  l ≠ l' → row_at (alter f l h) l' = row_at h l'.
Proof. intros Hne. unfold row_at. by rewrite list_lookup_alter_ne. Qed.

Lemma row_at_alter (f : list Cell → list Cell) h l :
  l < length h → row_at (alter f l h) l = f (row_at h l).
Proof.
  intros Hl. unfold row_at. rewrite list_lookup_alter_eq.
  by destruct (lookup_lt_is_Some_2 h l Hl) as [r ->].
Qed.

Lemma append_col_loop_length header i rest h :
  length (append_col_loop header i rest h) = length h.
Proof.
  revert i h. induction rest as [|l rest IH]; intros i h; simpl; [done|].
  by rewrite IH, length_alter.
Qed.

Lemma append_col_loop_other header i rest h l :
  l ∉ rest → row_at (append_col_loop header i rest h) l = row_at h l.
Proof.
  revert i h. induction rest as [|l' rest IH]; intros i h Hl; simpl; [done|].
  apply not_elem_of_cons in Hl as [Hne Hl].
  rewrite IH by done. by apply row_at_alter_ne.
Qed.

(** When the rows are distinct objects, each gets one cell more. *)
Lemma append_col_loop_rows header i rest h :
  NoDup rest → Forall (λ l, l < length h) rest →
  row_at (append_col_loop header i rest h) <$> rest
  = imap (λ k row, row ++ [new_col_cell header (i + k)]) (row_at h <$> rest).
Proof.
  revert i h. induction rest as [|l rest IH]; intros i h Hnd Hwf; [done|].
  apply NoDup_cons in Hnd as [Hl Hnd].
  apply Forall_cons in Hwf as [Hlt Hwf].
  cbn [append_col_loop fmap list_fmap imap]. f_equal.
  - rewrite append_col_loop_other by done.
    rewrite row_at_alter by done.
    by rewrite Nat.add_0_r.
  - rewrite IH; [|done|].
    + rewrite (imap_ext (λ k row, row ++ [new_col_cell header (S i + k)])
                 (λ k row, row ++ [new_col_cell header (i + S k)])).
      2:{ intros k row _. by rewrite Nat.add_succ_r. }
      f_equal. apply list_fmap_ext. intros k l' Hl'.
      apply row_at_alter_ne. intros ->.
      apply Hl. by eapply list_elem_of_lookup_2.
    + rewrite length_alter. done.
Qed.
Lemma ragged_imap_app (f : nat → Cell) (rs : list (list Cell)) :
  (∃ r1 r2, r1 ∈ rs ∧ r2 ∈ rs ∧ length r1 ≠ length r2) →
  ∃ r1 r2, r1 ∈ imap (λ i row, row ++ [f i]) rs
         ∧ r2 ∈ imap (λ i row, row ++ [f i]) rs
         ∧ length r1 ≠ length r2.
Proof.
  intros (r1 & r2 & H1 & H2 & Hne).
  apply list_elem_of_lookup in H1 as [i1 H1].
  apply list_elem_of_lookup in H2 as [i2 H2].
  exists (r1 ++ [f i1]), (r2 ++ [f i2]). split; [|split].
  - apply list_elem_of_lookup. exists i1. by rewrite list_lookup_imap, H1.
  - apply list_elem_of_lookup. exists i2. by rewrite list_lookup_imap, H2.
  - rewrite !length_app. simpl. lia.
Qed.

(** C4, as amended.  [append_col] checks nothing and raises nothing.  On
    a worksheet whose rows differ in length and are distinct list objects
    it completes, every row one cell longer (the header value in row 0, a
    blank cell in the others), so the rows still differ in length; the
    table-integrity error comes from a later [dim]. *)
Theorem append_col_ragged (header : pyobj) (h : heap) (ws : Worksheet) :
  wf h ws → NoDup (data ws) → ragged h ws →
  ∃ h', append_col header ws h = (h', None)
    ∧ rows h' ws
      = imap (λ i row, row ++ [new_col_cell header i]) (rows h ws)
    ∧ ragged h' ws
    ∧ dim h' ws = Raise inconsistent.
Proof.
  intros Hwf Hnd Hrag. eexists. split; [reflexivity|].
  assert (rows (append_col_loop header 0 (data ws) h) ws
          = imap (λ i row, row ++ [new_col_cell header i]) (rows h ws)) as Hrows.
  { unfold rows. by rewrite append_col_loop_rows. }
  assert (ragged (append_col_loop header 0 (data ws) h) ws) as Hrag'.
  { unfold ragged. rewrite Hrows. by apply ragged_imap_app. }
  split; [done|]. split; [done|].
  by apply dim_ragged.
Qed.

(** C10.  On a worksheet with no rows [append_col] does nothing, whatever
    the header: the store is as before, no exception is raised, [dim] is
    still [(0, 0)] and there is still no header. *)
Theorem append_col_empty (header : pyobj) (h : heap) (ws : Worksheet) :
  data ws = [] →
  append_col header ws h = (h, None)
  ∧ dim h ws = Ok (0, 0)
  ∧ column_headers h ws = [].
Proof.
  intros Hd. unfold append_col, column_headers. rewrite Hd.
  split; [done|]. split; [|done].
  by apply dim_empty.
Qed.

(** ** Prepending a row *)

Lemma row_at_app_old (h : heap) r l : l < length h → row_at (h ++ [r]) l = row_at h l.
Proof. intros Hl. unfold row_at. by rewrite lookup_app_l. Qed.

Lemma row_at_app_new (h : heap) r : row_at (h ++ [r]) (length h) = r.
Proof.
  unfold row_at. rewrite lookup_app_r by lia. by rewrite Nat.sub_diag.
Qed.

Lemma rows_alloc h ws n r :
  wf h ws → rows (h ++ [r]) (mkWorksheet n (data ws)) = rows h ws.
Proof.
  intros Hwf. unfold rows; simpl. apply list_fmap_ext. intros i l Hl.
  apply row_at_app_old. unfold wf in Hwf. rewrite Forall_forall in Hwf.
  apply Hwf. by eapply list_elem_of_lookup_2.
Qed.

Lemma fmap_blank (row : list Cell) :
  (λ _, Cell_init VNone) <$> row = replicate (length row) (Cell_init VNone).
Proof. induction row as [|c row IH]; simpl; [done|]. by f_equal. Qed.

Lemma format_width_msg a b :
  format width_msg [a; b]
  = Ok ("Worksheet and supplied row width inconsistent (" +:+ a +:+ " vs. "
        +:+ b +:+ ")").
Proof. reflexivity. Qed.

(** C8.  On a worksheet with at least one row, all rows of width [W]:
    [prepend_row()] puts a new row of [W] blank cells at index 0, the rows
    that were there follow unchanged and the row count grows by one;
    [prepend_row(row)] with a row of another length raises the
    width-mismatch error, whose message names [W] and the length of
    [row], and leaves the worksheet and the store as they were. *)
Theorem prepend_row_cases (h : heap) (ws : Worksheet) (W : nat) :
  wf h ws → data ws ≠ [] → rectangular h ws W →
  (∃ ws' h', prepend_row None ws h = ((ws', h'), None)
     ∧ rows h' ws' = replicate W (Cell_init VNone) :: rows h ws
     ∧ len ws' = S (len ws))
  ∧ (∀ row, length row ≠ W →
       prepend_row (Some row) ws h
       = ((ws, h),
          Some (Exc SpreadsheetError
            (VStr ("Worksheet and supplied row width inconsistent ("
                   +:+ pretty W +:+ " vs. " +:+ pretty (length row)
                   +:+ ")"))))).
Proof.
  intros Hwf Hne Hrect. split.
  - destruct (data ws) as [|l0 ls] eqn:Hd; [done|].
    exists (mkWorksheet (name ws) (length h :: data ws)),
           (h ++ [replicate W (Cell_init VNone)]).
    assert (length (row_at h l0) = W) as Hl0.
    { unfold rectangular, rows in Hrect. rewrite Hd in Hrect.
      by apply Forall_inv in Hrect. }
    split; [|split].
    + unfold prepend_row. rewrite Hd. by rewrite fmap_blank, Hl0.
    + unfold rows at 1. cbn [data fmap list_fmap]. f_equal.
      * by rewrite row_at_app_new.
      * by apply (rows_alloc h ws (name ws)).
    + unfold len; simpl. by rewrite Hd.
  - intros row Hlen. unfold prepend_row.
    rewrite (ncol_rectangular _ _ W) by done.
    rewrite (proj2 (Nat.eqb_neq _ _) Hlen).
    reflexivity.
Qed.

(** ** Indexing *)

Lemma py_getitem_valid {A} kind (l : list A) col :
  valid_index (length l) col = true →
  ∃ x, l !! position (length l) col = Some x ∧ py_getitem kind l col = Ok x.
Proof.
  unfold valid_index, position, py_getitem. intros Hv.
  apply andb_true_iff in Hv as [Hlo Hhi].
  apply Z.leb_le in Hlo. apply Z.ltb_lt in Hhi.
  set (j := if (col <? 0)%Z then (col + Z.of_nat (length l))%Z else col).
  assert (0 ≤ j < Z.of_nat (length l))%Z as Hj.
  { subst j. destruct (Z.ltb_spec col 0); lia. }
  replace ((0 <=? j)%Z && (j <? Z.of_nat (length l))%Z) with true
    by (symmetry; apply andb_true_iff; split; [apply Z.leb_le|apply Z.ltb_lt]; lia).
  destruct (lookup_lt_is_Some_2 l (Z.to_nat j)) as [x Hx]; [lia|].
  exists x. by rewrite Hx.
Qed.

Lemma py_getitem_invalid {A} kind (l : list A) col :
  valid_index (length l) col = false →
  py_getitem kind l col
  = Raise (Exc IndexError (VStr (kind +:+ " index out of range"))).
Proof.
  unfold valid_index, py_getitem. intros Hv.
  apply andb_false_iff in Hv.
  set (j := if (col <? 0)%Z then (col + Z.of_nat (length l))%Z else col).
  replace ((0 <=? j)%Z && (j <? Z.of_nat (length l))%Z) with false; [done|].
  symmetry. apply andb_false_iff. subst j.
  destruct Hv as [Hv|Hv];
    [apply Z.leb_gt in Hv|apply Z.ltb_ge in Hv];
    destruct (Z.ltb_spec col 0);
    first [left; apply Z.leb_gt; lia | right; apply Z.ltb_ge; lia].
Qed.

Lemma index_of_None x t : index_of x t = None ↔ x ∉ t.
Proof.
  induction t as [|y t IH]; simpl.
  - split; [intros _; apply not_elem_of_nil|done].
  - destruct (String.eqb_spec y x) as [->|Hne].
    + split; [done|]. intros Hx. exfalso. apply Hx. by left.
    + rewrite not_elem_of_cons, <- IH.
      destruct (index_of x t); simpl; split; try done.
      by intros [_ ?].
Qed.

Lemma index_of_Some x t n : index_of x t = Some n → t !! n = Some x.
Proof.
  revert n. induction t as [|y t IH]; intros n; simpl; [done|].
  destruct (String.eqb_spec y x) as [->|Hne].
  - by intros [= <-].
  - destruct (index_of x t) as [k|]; simpl; [|done].
    intros [= <-]. simpl. by apply IH.
Qed.

(** ** One column *)

Lemma column_loop_valid col (rs : list (list Cell)) :
  Forall (λ row, valid_index (length row) col = true) rs →
  ∃ cells, column_loop col rs = (cells, None) ∧ cells_at col rs cells.
Proof.
  intros Hall. induction Hall as [|row rs Hrow Hall IH]; simpl.
  - exists []. split; [done|constructor].
  - destruct (py_getitem_valid "list" row col Hrow) as (c & Hc & ->).
    destruct IH as (cells & -> & Hcells).
    exists (c :: cells). split; [done|]. by constructor.
Qed.

Lemma column_loop_invalid col (pre post : list (list Cell)) (row : list Cell) :
  Forall (λ row, valid_index (length row) col = true) pre →
  valid_index (length row) col = false →
  ∃ cells, column_loop col (pre ++ row :: post)
           = (cells, Some (index_error "list"))
    ∧ cells_at col pre cells.
Proof.
  intros Hpre Hrow. induction Hpre as [|r pre Hr Hpre IH]; simpl.
  - exists []. rewrite py_getitem_invalid by done. split; [done|constructor].
  - destruct (py_getitem_valid "list" r col Hr) as (c & Hc & ->).
    destruct IH as (cells & -> & Hcells).
    exists (c :: cells). split; [done|]. by constructor.
Qed.

Lemma column_int key z h ws :
  isinstance_int key = Some z → column key h ws = column_loop z (rows h ws).
Proof. intros Hz. unfold column. destruct key; try done; by rewrite Hz. Qed.

Lemma column_str s h ws :
  column (VStr s) h ws
  = match index_of s (column_headers h ws) with
    | Some n => column_loop (Z.of_nat n) (rows h ws)
    | None => ([], Some (Exc KeyError (VStr s)))
    end.
Proof. unfold column, tuple_index. by destruct (index_of _ _). Qed.

Lemma valid_index_nat n k : k < n → valid_index n (Z.of_nat k) = true.
Proof.
  intros Hk. unfold valid_index. apply andb_true_iff.
  split; [apply Z.leb_le|apply Z.ltb_lt]; lia.
Qed.

Lemma position_nat n k : position n (Z.of_nat k) = k.
Proof.
  unfold position. destruct (Z.ltb_spec (Z.of_nat k) 0); lia.
Qed.


(** ** Pairs of columns *)

Lemma rows_cons_inv h ws r rs :
  rows h ws = r :: rs → ∃ l0 ls, data ws = l0 :: ls ∧ row_at h l0 = r.
Proof.
  unfold rows. destruct (data ws) as [|l0 ls]; [done|].
  intros [= <- _]. by exists l0, ls.
Qed.

(** C6.  On a worksheet of three rows and three columns whose first row
    reads A, B, C, [column_pairs()] with the default arguments yields, for
    each of the rows 0, 1, 2 in this order (the default [start] is 0, so
    the row of the headers is one of them), exactly two pairs: the
    descriptor of column A with that of column B, then the descriptor of
    column A with that of column C; each descriptor holds the row index,
    the column index, the header and the cell.  Then the iteration
    ends. *)
Theorem column_pairs_abc (h : heap) (ws : Worksheet)
    (a0 b0 c0 a1 b1 c1 a2 b2 c2 : Cell) :
  rows h ws = [[a0; b0; c0]; [a1; b1; c1]; [a2; b2; c2]] →
  cell_str a0 = "A" → cell_str b0 = "B" → cell_str c0 = "C" →
  column_pairs None None 0 h ws
  = ([ (CellData.mk 0 0 "A" a0, CellData.mk 0 1 "B" b0);
       (CellData.mk 0 0 "A" a0, CellData.mk 0 2 "C" c0);
       (CellData.mk 1 0 "A" a1, CellData.mk 1 1 "B" b1);
       (CellData.mk 1 0 "A" a1, CellData.mk 1 2 "C" c1);
       (CellData.mk 2 0 "A" a2, CellData.mk 2 1 "B" b2);
       (CellData.mk 2 0 "A" a2, CellData.mk 2 2 "C" c2) ], None).
Proof.
  intros Hrows Ha Hb Hc.
  destruct (rows_cons_inv _ _ _ _ Hrows) as (l0 & ls & Hd & Hl0).
  assert (ncol h ws = Ok 3) as Hncol.
  { apply ncol_rectangular; [by rewrite Hd|].
    unfold rectangular. rewrite Hrows. by repeat constructor. }
  assert (column_headers h ws = ["A"; "B"; "C"]) as Hh.
  { unfold column_headers. rewrite Hd, Hl0. simpl. by rewrite Ha, Hb, Hc. }
  unfold column_pairs. rewrite Hncol, Hh, Hrows. reflexivity.
Qed.

(** ** The CSV export read back *)

Lemma readlines_step cur c rest :
  csv.readlines cur (String c rest)
  = if csv.line_ends c rest
    then (cur +:+ String c "") :: csv.readlines "" rest
    else csv.readlines (cur +:+ String c "") rest.
Proof.
  unfold csv.line_ends. simpl.
  destruct (Ascii.eqb_spec c csv.LF) as [->|Hlf]; [done|].
  destruct (Ascii.eqb_spec c csv.CR) as [->|Hcr]; [|done].
  destruct rest as [|c' rest']; [done|]. simpl.
  destruct (Ascii.eqb_spec c' csv.LF) as [->|Hlf']; simpl; [|done].
  done.
Qed.

Lemma process_line_app self s1 s2 :
  csv.process_line self (s1 +:+ s2)
  = self' ← csv.process_line self s1; csv.process_line self' s2.
Proof.
  revert self. induction s1 as [|c s1 IH]; intros self; simpl; [done|].
  destruct (csv.parse_process_char self (Some c)); simpl; [apply IH|done].
Qed.

Lemma string_length_snoc cur c :
  (String.length (cur +:+ String c "") =? 0) = false.
Proof. by destruct cur. Qed.

(** Whatever [feed] returns, the reader over the lines returns. *)
Lemma read_lines_feed text :
  ∀ self cur self' records out,
    csv.process_line self cur = Ok self' →
    csv.feed self' records (negb (String.length cur =? 0)) text = Ok out →
    csv.read_lines self (csv.readlines cur text) records = Ok out.
Proof.
  induction text as [|c rest IH]; intros self cur self' records out Hcur Hfeed.
  - simpl in *. destruct (String.length cur =? 0) eqn:Hlen; simpl in *.
    + destruct cur; [|done]. simpl in Hcur. by injection Hcur as ->.
    + rewrite Hcur. simpl. unfold csv.end_of_line in Hfeed.
      destruct (csv.parse_process_char self' None) as [self''|e]; [|done].
      simpl in *. by destruct (csv.at_record_start self'').
  - rewrite readlines_step. simpl in Hfeed.
    destruct (csv.parse_process_char self' (Some c)) as [self1|e] eqn:Hc;
      [|done].
    simpl in Hfeed.
    assert (csv.process_line self (cur +:+ String c "") = Ok self1) as Hcur'.
    { rewrite process_line_app, Hcur. simpl. by rewrite Hc. }
    destruct (csv.line_ends c rest).
    + simpl. rewrite Hcur'. simpl. unfold csv.end_of_line in Hfeed.
      destruct (csv.parse_process_char self1 None) as [self2|e]; [|done].
      simpl in *.
      destruct (csv.at_record_start self2);
        by eapply (IH _ EmptyString); [reflexivity|].
    + eapply IH; [exact Hcur'|]. by rewrite string_length_snoc.
Qed.

Lemma reader_feed text out :
  csv.feed csv.parse_reset [] false text = Ok out → csv.reader text = Ok out.
Proof. intros Hfeed. unfold csv.reader. by eapply read_lines_feed. Qed.
#[local] Arguments String.append !_ _ / : simpl nomatch.

Lemma str_app_assoc (a b c : string) : (a +:+ b) +:+ c = a +:+ (b +:+ c).
Proof. induction a as [|x a IH]; simpl; [done|]. by f_equal. Qed.

Lemma str_app_nil_r (a : string) : a +:+ "" = a.
Proof. induction a as [|x a IH]; simpl; [done|]. by f_equal. Qed.

Lemma special_false c :
  csv.special c = false →
  Ascii.eqb c csv.delimiter = false ∧ Ascii.eqb c csv.quotechar = false
  ∧ csv.is_nl c = false.
Proof.
  unfold csv.special. intros Hc.
  apply orb_false_elim in Hc as [Hc Hnl].
  by apply orb_false_elim in Hc as [Hd Hq].
Qed.

Lemma line_ends_not_nl c rest : csv.is_nl c = false → csv.line_ends c rest = false.
Proof.
  unfold csv.is_nl, csv.line_ends. intros Hc.
  apply orb_false_elim in Hc as [-> ->]. done.
Qed.

Section Feed.
Variables (fs : list string) (records : list (list string)).

(** A character that is not a line ending, read in the middle of a line. *)
Lemma feed_char self self' c b rest :
  csv.parse_process_char self (Some c) = Ok self' →
  csv.is_nl c = false →
  csv.feed self records b (String c rest) = csv.feed self' records true rest.
Proof.
  intros Hc Hnl. simpl. rewrite Hc. simpl. by rewrite line_ends_not_nl.
Qed.

(** The characters of an unquoted field. *)
Lemma feed_plain s : ∀ fld b rest,
  csv.has_special s = false →
  ∃ b', csv.feed (csv.mkReader csv.IN_FIELD fld fs) records b (s +:+ rest)
        = csv.feed (csv.mkReader csv.IN_FIELD (fld +:+ s) fs) records b' rest.
Proof.
  induction s as [|c s IH]; intros fld b rest Hs.
  - exists b. by rewrite str_app_nil_r.
  - simpl in Hs. apply orb_false_elim in Hs as [Hc Hs].
    destruct (special_false _ Hc) as (Hd & Hq & Hnl).
    destruct (IH (fld +:+ String c "") true rest Hs) as [b' IH'].
    exists b'. rewrite str_app_assoc in IH'. simpl in IH'.
    rewrite <- IH'. simpl String.app.
    apply feed_char; [|done].
    unfold csv.parse_process_char. simpl. by rewrite Hnl, Hd.
Qed.

(** The characters of a quoted field, up to the closing quote: a line
    that ends inside the field changes nothing. *)
Lemma feed_quoted f : ∀ fld b tail,
  ∃ b', csv.feed (csv.mkReader csv.IN_QUOTED_FIELD fld fs) records b
          (csv.doubled f +:+ String csv.quotechar tail)
        = csv.feed (csv.mkReader csv.IN_QUOTED_FIELD (fld +:+ f) fs) records b'
            (String csv.quotechar tail).
Proof.
  induction f as [|c f IH]; intros fld b tail.
  - exists b. by rewrite str_app_nil_r.
  - simpl csv.doubled.
    replace (fld +:+ String c f) with ((fld +:+ String c "") +:+ f)
      by by rewrite str_app_assoc.
    destruct (Ascii.eqb_spec c csv.quotechar) as [->|Hq].
    + destruct (IH (fld +:+ String csv.quotechar "") true tail) as [b' IH'].
      exists b'. rewrite <- IH'. reflexivity.
    + assert (Ascii.eqb c csv.quotechar = false) as Hq'
        by by apply Ascii.eqb_neq.
      destruct (csv.line_ends c (csv.doubled f +:+ String csv.quotechar tail))
        eqn:Hle.
      * destruct (IH (fld +:+ String c "") false tail) as [b' IH'].
        exists b'. rewrite <- IH'. simpl String.append. cbn [csv.feed].
        rewrite Hle. unfold csv.parse_process_char at 1. cbn [csv.state].
        by rewrite Hq'.
      * destruct (IH (fld +:+ String c "") true tail) as [b' IH'].
        exists b'. rewrite <- IH'. simpl String.append. cbn [csv.feed].
        rewrite Hle. unfold csv.parse_process_char at 1. cbn [csv.state].
        by rewrite Hq'.
Qed.

(** What follows a field: the delimiter or the line terminator. *)
Lemma feed_close_quote_delim fld b rest :
  csv.feed (csv.mkReader csv.IN_QUOTED_FIELD fld fs) records b
    (String csv.quotechar (String csv.delimiter rest))
  = csv.feed (csv.mkReader csv.START_FIELD "" (fs ++ [fld])) records true rest.
Proof. reflexivity. Qed.

Lemma feed_close_quote_crlf fld b rest :
  csv.feed (csv.mkReader csv.IN_QUOTED_FIELD fld fs) records b
    (String csv.quotechar (csv.lineterminator +:+ rest))
  = csv.feed csv.parse_reset (records ++ [fs ++ [fld]]) false rest.
Proof. reflexivity. Qed.

Lemma feed_in_field_delim fld b rest :
  csv.feed (csv.mkReader csv.IN_FIELD fld fs) records b
    (String csv.delimiter rest)
  = csv.feed (csv.mkReader csv.START_FIELD "" (fs ++ [fld])) records true rest.
Proof. reflexivity. Qed.

Lemma feed_in_field_crlf fld b rest :
  csv.feed (csv.mkReader csv.IN_FIELD fld fs) records b
    (csv.lineterminator +:+ rest)
  = csv.feed csv.parse_reset (records ++ [fs ++ [fld]]) false rest.
Proof. reflexivity. Qed.

Lemma feed_start_delim st b rest :
  field_start st →
  csv.feed (csv.mkReader st "" fs) records b (String csv.delimiter rest)
  = csv.feed (csv.mkReader csv.START_FIELD "" (fs ++ [""])) records true rest.
Proof. by intros [-> | ->]. Qed.

Lemma feed_start_field_crlf b rest :
  csv.feed (csv.mkReader csv.START_FIELD "" fs) records b
    (csv.lineterminator +:+ rest)
  = csv.feed csv.parse_reset (records ++ [fs ++ [""]]) false rest.
Proof. reflexivity. Qed.

Lemma feed_start_record_crlf b rest :
  csv.feed (csv.mkReader csv.START_RECORD "" fs) records b
    (csv.lineterminator +:+ rest)
  = csv.feed csv.parse_reset (records ++ [fs]) false rest.
Proof. reflexivity. Qed.

Lemma feed_open_quote st b rest :
  field_start st →
  csv.feed (csv.mkReader st "" fs) records b (String csv.quotechar rest)
  = csv.feed (csv.mkReader csv.IN_QUOTED_FIELD "" fs) records true rest.
Proof. by intros [-> | ->]. Qed.

Lemma feed_first_char st c b rest :
  field_start st → csv.special c = false →
  csv.feed (csv.mkReader st "" fs) records b (String c rest)
  = csv.feed (csv.mkReader csv.IN_FIELD (String c "") fs) records true rest.
Proof.
  intros Hst Hc. destruct (special_false _ Hc) as (Hd & Hq & Hnl).
  apply feed_char; [|done].
  unfold csv.parse_process_char, csv.start_field.
  destruct Hst as [-> | ->]; simpl; by rewrite Hnl, Hq, Hd.
Qed.

(** A quoted field, from the opening quote to just before the closing
    one. *)
Lemma feed_quoted_field st f b tail :
  field_start st →
  ∃ b', csv.feed (csv.mkReader st "" fs) records b
          (String csv.quotechar (csv.doubled f +:+ String csv.quotechar tail))
        = csv.feed (csv.mkReader csv.IN_QUOTED_FIELD f fs) records b'
            (String csv.quotechar tail).
Proof.
  intros Hst. rewrite feed_open_quote by done.
  destruct (feed_quoted f "" true tail) as [b' Hq]. by exists b'.
Qed.

(** An unquoted field that is not empty, up to what follows it. *)
Lemma feed_plain_field st f b tail :
  field_start st → csv.has_special f = false → f ≠ "" →
  ∃ b', csv.feed (csv.mkReader st "" fs) records b (f +:+ tail)
        = csv.feed (csv.mkReader csv.IN_FIELD f fs) records b' tail.
Proof.
  intros Hst Hf Hne. destruct f as [|c f]; [done|].
  simpl in Hf. apply orb_false_elim in Hf as [Hc Hf].
  simpl String.append. rewrite feed_first_char by done.
  destruct (feed_plain f (String c "") true tail Hf) as [b' Hp]. by exists b'.
Qed.
End Feed.

(** One field followed by the delimiter. *)
Lemma feed_field_delim fs records st f b rest :
  field_start st →
  ∃ b', csv.feed (csv.mkReader st "" fs) records b
          (csv.join_append f false +:+ String csv.delimiter rest)
        = csv.feed (csv.mkReader csv.START_FIELD "" (fs ++ [f])) records b' rest.
Proof.
  intros Hst. unfold csv.join_append. simpl orb.
  destruct (csv.has_special f) eqn:Hf.
  - simpl String.append. rewrite str_app_assoc. simpl String.append.
    destruct (feed_quoted_field fs records st f b
                (String csv.delimiter rest) Hst) as [b' ->].
    exists true. apply feed_close_quote_delim.
  - destruct f as [|c f].
    + exists true. by apply feed_start_delim.
    + destruct (feed_plain_field fs records st (String c f) b
                  (String csv.delimiter rest) Hst Hf) as [b' ->]; [done|].
      exists true. apply feed_in_field_delim.
Qed.

(** The last field of a record followed by the line terminator: the
    record is complete.  A record that starts with an unquoted empty field
    and ends there has no field at all. *)
Lemma feed_field_crlf fs records st f quoted b rest :
  field_start st →
  st = csv.START_FIELD ∨ f ≠ "" ∨ quoted = true →
  csv.feed (csv.mkReader st "" fs) records b
    (csv.join_append f quoted +:+ csv.lineterminator +:+ rest)
  = csv.feed csv.parse_reset (records ++ [fs ++ [f]]) false rest.
Proof.
  intros Hst Hcase. unfold csv.join_append.
  destruct (quoted || csv.has_special f) eqn:Hf.
  - simpl String.append. rewrite str_app_assoc. simpl String.append.
    destruct (feed_quoted_field fs records st f b
                (String csv.CR (String csv.LF rest)) Hst) as [b' ->].
    apply feed_close_quote_crlf.
  - apply orb_false_elim in Hf as [-> Hf].
    destruct f as [|c f].
    + destruct Hcase as [-> | [? | ?]]; [|done..].
      apply feed_start_field_crlf.
    + destruct (feed_plain_field fs records st (String c f) b
                  (csv.lineterminator +:+ rest) Hst Hf) as [b' ->]; [done|].
      apply feed_in_field_crlf.
Qed.

(** The fields of a record after the first one. *)
Lemma feed_join texts : ∀ fs records b rest,
  texts ≠ [] →
  csv.feed (csv.mkReader csv.START_FIELD "" fs) records b
    (csv.join ((λ f, csv.join_append f false) <$> texts)
     +:+ csv.lineterminator +:+ rest)
  = csv.feed csv.parse_reset (records ++ [fs ++ texts]) false rest.
Proof.
  induction texts as [|f texts IH]; intros fs records b rest Hne; [done|].
  destruct texts as [|f' texts].
  - simpl csv.join. apply feed_field_crlf; [by right|by left].
  - change (csv.join _) with
      (csv.join_append f false
       +:+ String csv.delimiter
             (csv.join ((λ f, csv.join_append f false) <$> (f' :: texts)))).
    rewrite str_app_assoc.
    change (String csv.delimiter ?j +:+ ?x)
      with (String csv.delimiter (j +:+ x)).
    destruct (feed_field_delim fs records csv.START_FIELD f b
      (csv.join ((λ f, csv.join_append f false) <$> (f' :: texts))
       +:+ csv.lineterminator +:+ rest)) as [b' ->]; [by right|].
    rewrite IH by done. by rewrite <- app_assoc.
Qed.
Lemma join_append_empty f quoted :
  (String.length (csv.join_append f quoted) =? 0) = true →
  f = "" ∧ quoted = false.
Proof.
  unfold csv.join_append.
  destruct (quoted || csv.has_special f) eqn:Hq; simpl; [done|].
  apply orb_false_elim in Hq as [-> _].
  by destruct f.
Qed.

(** One record as [writerow] writes it, read back. *)
Lemma feed_writerow (row : list pyobj) records rest :
  csv.feed csv.parse_reset records false (csv.writerow row +:+ rest)
  = csv.feed csv.parse_reset (records ++ [csv.field_text <$> row]) false rest.
Proof.
  unfold csv.writerow. rewrite str_app_assoc.
  destruct row as [|v [|v' row]].
  - exact (feed_start_record_crlf [] records false rest).
  - cbn [length Nat.eqb negb andb fmap list_fmap csv.join].
    destruct (String.length (csv.join_append (csv.field_text v) false) =? 0)
      eqn:Hlen.
    + apply join_append_empty in Hlen as [-> _].
      apply (feed_field_crlf [] records csv.START_RECORD "" true);
        [by left|by right; right].
    + apply (feed_field_crlf [] records csv.START_RECORD _ false);
        [by left|].
      right; left. intros Hf. by rewrite Hf in Hlen.
  - set (texts := csv.field_text <$> v' :: row).
    replace (csv.join ((λ v, csv.join_append (csv.field_text v) false)
                       <$> v :: v' :: row))
      with (csv.join_append (csv.field_text v) false
            +:+ String csv.delimiter
                  (csv.join ((λ f, csv.join_append f false) <$> texts))).
    2:{ subst texts. by rewrite <- list_fmap_compose. }
    replace (negb (length (v :: v' :: row) =? 0) && _) with false.
    2:{ symmetry. apply andb_false_iff. right.
        unfold csv.join_append.
        by destruct (false || csv.has_special (csv.field_text v));
          [|destruct (csv.field_text v)]. }
    rewrite str_app_assoc.
    change (String csv.delimiter ?j +:+ ?x)
      with (String csv.delimiter (j +:+ x)).
    unfold csv.parse_reset at 1.
    destruct (feed_field_delim [] records csv.START_RECORD
      (csv.field_text v) false
      (csv.join ((λ f, csv.join_append f false) <$> texts)
       +:+ csv.lineterminator +:+ rest)) as [b' ->]; [by left|].
    by rewrite feed_join.
Qed.

Lemma concat_cons (x : string) (xs : list string) :
  String.concat "" (x :: xs) = x +:+ String.concat "" xs.
Proof. destruct xs; simpl; [by rewrite str_app_nil_r|done]. Qed.

(** All the records, read back. *)
Lemma feed_rows (table : list (list pyobj)) :
  ∀ records : list (list string),
  csv.feed csv.parse_reset records false
    (String.concat "" (csv.writerow <$> table))
  = Ok (records ++ ((λ row : list pyobj, csv.field_text <$> row) <$> table)).
Proof.
  induction table as [|row table IH]; intros records.
  - simpl. by rewrite app_nil_r.
  - rewrite fmap_cons, concat_cons, feed_writerow, IH.
    by rewrite <- app_assoc.
Qed.

Lemma field_text_cell_str strings (row : list Cell) :
  csv.field_text <$> csv_values strings row = cell_str <$> row.
Proof.
  unfold csv_values. destruct strings; rewrite <- list_fmap_compose;
    apply list_fmap_ext; intros i c _; unfold cell_str; simpl; [done|].
  by destruct (value c).
Qed.

(** The text [to_csv] writes reads back as the strings of the cells, in
    either mode. *)
Lemma to_csv_text strings (table : list (list Cell)) :
  csv.reader (String.concat ""
    ((λ row, csv.writerow (csv_values strings row)) <$> table))
  = Ok ((λ row : list Cell, cell_str <$> row) <$> table).
Proof.
  apply reader_feed.
  change (λ row, csv.writerow (csv_values strings row))
    with (csv.writerow ∘ csv_values strings).
  rewrite list_fmap_compose, feed_rows. simpl. f_equal.
  rewrite <- list_fmap_compose. apply list_fmap_ext. intros i row _.
  apply field_text_cell_str.
Qed.


(** ** Cells: tags without a branch, trimming, blankness *)

(** X1.  A raw cell whose tag is none of boolean, empty, text, number,
    date and error is refused: [cell_value] and [from_cell] raise a
    [TypeError] whose message holds the tag and the raw value.  The tag
    [XL_CELL_BLANK] of xlrd (an empty cell that has a format) is such a
    tag. *)
Theorem unrecognized_tag_raises (ctype : Z) (raw : pyobj)
    (datemode : option Z) (stripstr : bool) :
  recognized ctype = false →
  let e := Exc TypeError
    (VStr ("Unhandled cell exception." +:+ nl +:+ "Type: " +:+ pretty ctype
           +:+ nl +:+ "Value: " +:+ py_str raw +:+ "")) in
  cell_value (xlrd.mkCell ctype raw) datemode stripstr = Raise e
  ∧ from_cell (xlrd.mkCell ctype raw) datemode stripstr = Raise e
  ∧ recognized xlrd.XL_CELL_BLANK = false.
Proof.
  intros Hrec e.
  pose proof (unhandled_cell_message ctype raw datemode stripstr Hrec) as Hv.
  split; [exact Hv|]. split; [|reflexivity].
  unfold from_cell. by rewrite Hv.
Qed.

Lemma lstrip_spec s :
  ∃ pre, s = pre +:+ lstrip s ∧ all_space pre = true
    ∧ starts_space (lstrip s) = false.
Proof.
  induction s as [|c s (pre & Hs & Hpre & Hstart)]; simpl.
  - by exists "".
  - destruct (is_space c) eqn:Hc.
    + exists (String c pre). simpl. rewrite Hc, Hpre. by rewrite <- Hs.
    + exists "". by simpl.
Qed.

Lemma rstrip_spec s :
  ∃ post, s = rstrip s +:+ post ∧ all_space post = true
    ∧ ends_space (rstrip s) = false.
Proof.
  induction s as [|c s (post & Hs & Hpost & Hend)]; simpl.
  - by exists "".
  - destruct (rstrip s) as [|c' r] eqn:Hr.
    + simpl in Hs. subst post. destruct (is_space c) eqn:Hc.
      * exists (String c s). simpl. by rewrite Hc, Hpost.
      * exists s. by simpl.
    + exists post. split; [by rewrite Hs at 1|]. split; [done|].
      exact Hend.
Qed.

Lemma rstrip_keeps_start s :
  starts_space s = false → starts_space (rstrip s) = false.
Proof.
  destruct s as [|c s]; simpl; [done|]. intros Hc.
  destruct (rstrip s); simpl; [by rewrite Hc|done].
Qed.

Lemma rstrip_fixed s : ends_space s = false → rstrip s = s.
Proof.
  induction s as [|c s IH]; [done|]. intros Hend.
  destruct s as [|c' s'].
  - simpl in *. by rewrite Hend.
  - change (ends_space (String c (String c' s')))
      with (ends_space (String c' s')) in Hend.
    change (rstrip (String c (String c' s'))) with
      (match rstrip (String c' s') with
       | EmptyString => if is_space c then EmptyString else String c EmptyString
       | rest' => String c rest'
       end).
    by rewrite (IH Hend).
Qed.

Lemma strip_fixed s :
  starts_space s = false → ends_space s = false → strip s = s.
Proof.
  intros Hstart Hend. unfold strip.
  assert (lstrip s = s) as ->.
  { destruct s as [|c s]; simpl in *; [done|]. by rewrite Hstart. }
  by apply rstrip_fixed.
Qed.

(** X2.  A text cell is trimmed at both ends and not changed otherwise:
    the raw string is whitespace, then the value, then whitespace; the
    value neither starts nor ends with whitespace, and normalising it
    again gives the same value.  With [stripstr] false the raw string is
    kept as it is. *)
Theorem text_cell_trimmed (s : string) (datemode : option Z) :
  ∃ t pre post,
    cell_value (xlrd.mkCell xlrd.XL_CELL_TEXT (VStr s)) datemode true
    = Ok (VStr t)
    ∧ s = pre +:+ t +:+ post
    ∧ all_space pre = true ∧ all_space post = true
    ∧ starts_space t = false ∧ ends_space t = false
    ∧ cell_value (xlrd.mkCell xlrd.XL_CELL_TEXT (VStr t)) datemode true
      = Ok (VStr t)
    ∧ cell_value (xlrd.mkCell xlrd.XL_CELL_TEXT (VStr s)) datemode false
      = Ok (VStr s).
Proof.
  destruct (lstrip_spec s) as (pre & Hs & Hpre & Hstart).
  destruct (rstrip_spec (lstrip s)) as (post & Hl & Hpost & Hend).
  exists (strip s), pre, post.
  assert (starts_space (strip s) = false) as Hstart'
    by by apply rstrip_keeps_start.
  repeat split; try done.
  - unfold strip. by rewrite <- Hl.
  - unfold cell_value; simpl. by rewrite strip_fixed.
Qed.

(** X3.  A blank cell is falsy, and the cells that are falsy without
    being blank are exactly those whose value is [False], the integer 0
    or a float zero. *)
Theorem falsy_cells (c : Cell) :
  cell_bool c = false
  ↔ is_blank c = true ∨ value c = VBool false ∨ value c = VInt 0
    ∨ ∃ s, value c = VFloat (S754_zero s).
Proof.
  unfold cell_bool, is_blank, py_bool.
  destruct (value c) as [|[]|z|[s|s| |s m e]|t| | |]; simpl; split;
    try (intros [?|[?|[?|[? ?]]]]); try done; eauto 6.
  - destruct (Z.eqb_spec z 0) as [->|]; [eauto|done].
  - match goal with Hz : VInt _ = VInt _ |- _ => by injection Hz as -> end.
  - destruct (String.eqb t ""); [eauto|done].
  - by destruct (String.eqb t "").
Qed.

(** ** Worksheets: names, construction from a raw sheet, dimensions *)

(** X4.  A worksheet made without a name is called [sheet] followed by
    the class counter after it was incremented, and the counter stays
    incremented; a worksheet made with a name leaves the counter alone.
    So two worksheets made without a name at different counter values
    have different names. *)
Theorem default_names (d1 d2 : option (list loc)) (n : string) (c1 c2 : nat) :
  Worksheet_init d1 None c1
  = (mkWorksheet ("sheet" +:+ pretty (S c1)) (default [] d1), S c1)
  ∧ Worksheet_init d1 (Some n) c1 = (mkWorksheet n (default [] d1), c1)
  ∧ (c1 ≠ c2 →
     name (Worksheet_init d1 None c1).1 ≠ name (Worksheet_init d2 None c2).1).
Proof.
  split; [by destruct d1|]. split; [by destruct d1|].
  intros Hne Heq. destruct d1, d2; simpl in Heq;
    injection Heq as Heq; apply (inj pretty) in Heq; lia.
Qed.

Lemma map_result_ok {A B} (f : A → result B) (l : list A) (ys : list B) :
  map_result f l = Ok ys ↔ Forall2 (λ x y, f x = Ok y) l ys.
Proof.
  revert ys. induction l as [|x l IH]; intros ys; simpl.
  - split; [intros [= <-]; constructor|by inversion 1].
  - destruct (f x) as [y|e] eqn:Hx; simpl.
    + destruct (map_result f l) as [ys'|e] eqn:Hl; simpl.
      * split.
        -- intros [= <-]. constructor; [done|]. by apply IH.
        -- inversion 1 as [|? y' ? ys'' Hy Hys]; subst.
           assert (y' = y) as -> by congruence.
           apply IH in Hys. congruence.
      * split; [done|]. inversion 1 as [|? y' ? ys'' Hy Hys]; subst.
        apply IH in Hys. done.
    + split; [done|]. inversion 1; congruence.
Qed.

Lemma map_result_raise {A B} (f : A → result B) pre x post e :
  Forall (λ x, is_ok (f x) = true) pre → f x = Raise e →
  map_result f (pre ++ x :: post) = Raise e.
Proof.
  intros Hpre Hx. induction Hpre as [|y pre Hy Hpre IH]; simpl.
  - by rewrite Hx.
  - destruct (f y); [|done]. simpl. by rewrite IH.
Qed.

Lemma map_result_total {A B} (f : A → result B) l :
  Forall (λ x, is_ok (f x) = true) l → ∃ ys, map_result f l = Ok ys.
Proof.
  induction 1 as [|x l Hx Hl [ys IH]]; simpl; [by eexists|].
  destruct (f x) as [y|]; [|done]. simpl. rewrite IH. by eexists.
Qed.

(** The loop of [from_sheet]: the new rows go to the end of the store, in
    order, and their addresses to the end of [data]. *)
Lemma from_sheet_rows_ok raw : ∀ datemode ws h ws' h',
  from_sheet_rows raw datemode ws h = Ok (ws', h') →
  ∃ new, h' = h ++ new
    ∧ Forall2 (Forall2 (λ c cell, from_cell c datemode true = Ok cell)) raw new
    ∧ data ws' = data ws ++ seq (length h) (length new)
    ∧ name ws' = name ws.
Proof.
  induction raw as [|r raw IH]; intros datemode ws h ws' h'; simpl.
  - intros [= <- <-]. exists []. rewrite !app_nil_r. by repeat split.
  - destruct (map_result _ r) as [cur_row|e] eqn:Hr; [|done]. simpl.
    intros Hrest. apply IH in Hrest as (new & -> & Hnew & Hdata & Hname).
    exists (cur_row :: new). simpl in *. split; [by rewrite <- app_assoc|].
    split; [constructor; [by apply map_result_ok|done]|].
    split; [|done].
    rewrite Hdata, length_app, <- app_assoc. simpl.
    by rewrite Nat.add_1_r.
Qed.

Lemma rows_of_seq (h new : list (list Cell)) :
  row_at (h ++ new) <$> seq (length h) (length new) = new.
Proof.
  revert h. induction new as [|r new IH]; intros h; simpl; [done|].
  f_equal.
  - unfold row_at. rewrite lookup_app_r by lia. by rewrite Nat.sub_diag.
  - specialize (IH (h ++ [r])). rewrite <- app_assoc, length_app in IH.
    simpl in IH. by rewrite Nat.add_1_r in IH.
Qed.

(** X5.  When [from_sheet] returns, the worksheet has the name of the raw
    sheet and one row for each raw row, in order; every cell holds the
    normalised value of the raw cell at the same place and no highlight;
    the rows are new, distinct list objects, and the rows the store held
    before are as they were. *)
Theorem from_sheet_result (sheet : xlrd.Sheet) (datemode : option Z)
    (h : heap) (ws' : Worksheet) (h' : heap) :
  from_sheet sheet datemode h = Ok (ws', h') →
  name ws' = xlrd.name sheet
  ∧ len ws' = length (xlrd.rows sheet)
  ∧ Forall2 (Forall2 (λ c cell,
               cell_value c datemode true = Ok (value cell)
               ∧ highlight cell = None))
      (xlrd.rows sheet) (rows h' ws')
  ∧ wf h' ws' ∧ NoDup (data ws')
  ∧ (∀ l, l < length h → row_at h' l = row_at h l ∧ l ∉ data ws').
Proof.
  unfold from_sheet. intros Hfs.
  apply from_sheet_rows_ok in Hfs as (new & -> & Hnew & Hdata & Hname).
  simpl in Hdata, Hname.
  assert (rows (h ++ new) ws' = new) as Hrows.
  { unfold rows. rewrite Hdata. apply rows_of_seq. }
  split; [done|]. split; [|split; [|split; [|split]]].
  - unfold len. rewrite Hdata, length_seq. symmetry.
    by eapply Forall2_length.
  - rewrite Hrows. eapply Forall2_impl; [exact Hnew|].
    intros r row Hr. eapply Forall2_impl; [exact Hr|].
    intros c cell. unfold from_cell.
    destruct (cell_value c datemode true); simpl; [|done].
    by intros [= <-].
  - unfold wf. rewrite Hdata. apply Forall_forall. intros l Hl.
    apply elem_of_seq in Hl. rewrite length_app. lia.
  - rewrite Hdata. apply NoDup_seq.
  - intros l Hl. split.
    + unfold row_at. by rewrite lookup_app_l.
    + rewrite Hdata. intros Hin. apply elem_of_seq in Hin. lia.
Qed.

Lemma from_sheet_rows_raise before : ∀ pre c post after datemode ws h e,
  Forall (Forall (λ c, is_ok (from_cell c datemode true) = true)) before →
  Forall (λ c, is_ok (from_cell c datemode true) = true) pre →
  from_cell c datemode true = Raise e →
  from_sheet_rows (before ++ (pre ++ c :: post) :: after) datemode ws h
  = Raise e.
Proof.
  induction before as [|r before IH];
    intros pre c post after datemode ws h e Hbefore Hpre Hc; simpl.
  - by rewrite (map_result_raise _ pre c post e).
  - apply Forall_cons in Hbefore as [Hr Hbefore].
    destruct (map_result_total _ r Hr) as [cur_row ->]. simpl.
    by apply IH.
Qed.

Lemma from_sheet_rows_total raw : ∀ datemode ws h,
  Forall (Forall (λ c, is_ok (from_cell c datemode true) = true)) raw →
  is_ok (from_sheet_rows raw datemode ws h) = true.
Proof.
  induction raw as [|r raw IH]; intros datemode ws h Hraw; simpl; [done|].
  apply Forall_cons in Hraw as [Hr Hraw].
  destruct (map_result_total _ r Hr) as [cur_row ->]. simpl.
  by apply IH.
Qed.

Lemma from_cell_is_ok c datemode stripstr :
  is_ok (from_cell c datemode stripstr) = is_ok (cell_value c datemode stripstr).
Proof. unfold from_cell. by destruct (cell_value c datemode stripstr). Qed.

Lemma from_cell_raise c datemode stripstr e :
  cell_value c datemode stripstr = Raise e →
  from_cell c datemode stripstr = Raise e.
Proof. intros Hc. unfold from_cell. by rewrite Hc. Qed.

(** X6.  [from_sheet] has no partial success.  It returns a worksheet
    when every raw cell normalises; otherwise it raises the exception of
    the first raw cell, in row-major order, that does not normalise, and
    no worksheet is returned. *)
Theorem from_sheet_all_or_nothing (sheet : xlrd.Sheet)
    (datemode : option Z) (h : heap) :
  (Forall (Forall (λ c, is_ok (cell_value c datemode true) = true))
     (xlrd.rows sheet) →
   is_ok (from_sheet sheet datemode h) = true)
  ∧ (∀ before pre c post after e,
       xlrd.rows sheet = before ++ (pre ++ c :: post) :: after →
       Forall (Forall (λ c, is_ok (cell_value c datemode true) = true))
         before →
       Forall (λ c, is_ok (cell_value c datemode true) = true) pre →
       cell_value c datemode true = Raise e →
       from_sheet sheet datemode h = Raise e).
Proof.
  split.
  - intros Hall. unfold from_sheet. apply from_sheet_rows_total.
    eapply Forall_impl; [exact Hall|]. intros r Hr.
    eapply Forall_impl; [exact Hr|]. intros c Hc.
    by rewrite from_cell_is_ok.
  - intros before pre c post after e Hrows Hbefore Hpre Hc.
    unfold from_sheet. rewrite Hrows. apply from_sheet_rows_raise.
    + eapply Forall_impl; [exact Hbefore|]. intros r Hr.
      eapply Forall_impl; [exact Hr|]. intros c' Hc'.
      by rewrite from_cell_is_ok.
    + eapply Forall_impl; [exact Hpre|]. intros c' Hc'.
      by rewrite from_cell_is_ok.
    + by apply from_cell_raise.
Qed.

(** A worksheet has no rows, or rows of one width, or two rows that
    differ in length. *)
Lemma shape_cases h ws :
  data ws = [] ∨ (∃ w, data ws ≠ [] ∧ rectangular h ws w) ∨ ragged h ws.
Proof.
  destruct (data ws) as [|l0 ls] eqn:Hd; [by left|right].
  set (w := length (row_at h l0)).
  destruct (decide (Forall (λ row, length row = w) (rows h ws)))
    as [Hall|Hnot].
  - left. exists w. split; [done|exact Hall].
  - right. apply not_Forall_Exists in Hnot; [|apply _].
    apply Exists_exists in Hnot as (r & Hr & Hne).
    exists (row_at h l0), r. split; [|split; [done|]].
    + unfold rows. rewrite Hd. by left.
    + simpl in Hne. by intros Heq; apply Hne.
Qed.

Lemma ragged_not_rectangular h ws w : ragged h ws → ¬ rectangular h ws w.
Proof.
  intros (r1 & r2 & H1 & H2 & Hne) Hrect. unfold rectangular in Hrect.
  rewrite Forall_forall in Hrect. apply Hne.
  by rewrite (Hrect r1 H1), (Hrect r2 H2).
Qed.

(** X7.  [dim] returns [(n, w)] exactly when [n] is the number of rows
    and either there is no row and [w] is 0 or every row has length [w];
    it raises exactly when two rows differ in length, and then always the
    table-integrity error. *)
Theorem dim_outcomes (h : heap) (ws : Worksheet) :
  (∀ n w, dim h ws = Ok (n, w)
     ↔ n = len ws
       ∧ (data ws = [] ∧ w = 0 ∨ data ws ≠ [] ∧ rectangular h ws w))
  ∧ (∀ e, dim h ws = Raise e ↔ e = inconsistent ∧ ragged h ws).
Proof.
  split.
  - intros n w. split.
    + intros Hdim.
      destruct (shape_cases h ws) as [Hd|[(w' & Hne & Hrect)|Hrag]].
      * rewrite dim_empty in Hdim by done. injection Hdim as <- <-.
        unfold len. rewrite Hd. by split; [|left].
      * rewrite (dim_rectangular _ _ w') in Hdim by done.
        injection Hdim as <- <-. by split; [|right].
      * by rewrite dim_ragged in Hdim.
    + intros [-> [[Hd ->]|[Hne Hrect]]].
      * rewrite dim_empty by done. unfold len. by rewrite Hd.
      * by apply dim_rectangular.
  - intros e. split.
    + intros Hdim.
      destruct (shape_cases h ws) as [Hd|[(w' & Hne & Hrect)|Hrag]].
      * by rewrite dim_empty in Hdim.
      * by rewrite (dim_rectangular _ _ w') in Hdim.
      * rewrite dim_ragged in Hdim by done. by injection Hdim as <-.
    + intros [-> Hrag]. by apply dim_ragged.
Qed.

Lemma format_repr_template n d :
  format repr_template [n; d]
  = Ok ("<Worksheet(name=" +:+ dquote +:+ n +:+ dquote +:+ "), dim="
        +:+ d +:+ ">").
Proof. reflexivity. Qed.

(** X8.  [repr] of a worksheet shows its name and its dimensions; as it
    asks for the dimensions, [repr] of a worksheet with two rows of
    different lengths raises the table-integrity error. *)
Theorem repr_outcomes (h : heap) (ws : Worksheet) :
  (∀ n w, dim h ws = Ok (n, w) →
     Worksheet_repr h ws
     = Ok ("<Worksheet(name=" +:+ dquote +:+ name ws +:+ dquote
           +:+ "), dim=" +:+ str_pair (n, w) +:+ ">"))
  ∧ (ragged h ws → Worksheet_repr h ws = Raise inconsistent).
Proof.
  unfold Worksheet_repr. split.
  - intros n w ->. cbn [mbind result_bind].
    by rewrite format_repr_template.
  - intros Hrag. by rewrite dim_ragged.
Qed.

(** ** Prepending a row: the other cases *)

Lemma rows_prepend h ws r :
  wf h ws →
  rows (h ++ [r]) (mkWorksheet (name ws) (length h :: data ws))
  = r :: rows h ws.
Proof.
  intros Hwf. unfold rows at 1. cbn [data fmap list_fmap]. f_equal.
  - apply row_at_app_new.
  - by apply (rows_alloc h ws (name ws)).
Qed.

Lemma wf_prepend h ws r :
  wf h ws → wf (h ++ [r]) (mkWorksheet (name ws) (length h :: data ws)).
Proof.
  unfold wf. simpl. intros Hwf. rewrite length_app. simpl.
  constructor; [lia|]. eapply Forall_impl; [exact Hwf|]. simpl. lia.
Qed.

Lemma NoDup_prepend (h : heap) ws :
  wf h ws → NoDup (data ws) → NoDup (length h :: data ws).
Proof.
  intros Hwf Hnd. apply NoDup_cons. split; [|done].
  intros Hin. unfold wf in Hwf. rewrite Forall_forall in Hwf.
  apply Hwf in Hin. lia.
Qed.

(** X9.  On a worksheet with no rows: [prepend_row()] makes one row of a
    single blank cell, so [dim] becomes [(1, 1)]; [prepend_row(row)]
    takes only the empty row, since the width of the worksheet is 0, and
    refuses every other row with the width-mismatch error. *)
Theorem prepend_row_empty_sheet (h : heap) (ws : Worksheet) :
  data ws = [] →
  (∃ ws' h', prepend_row None ws h = ((ws', h'), None)
     ∧ rows h' ws' = [[Cell_init VNone]] ∧ dim h' ws' = Ok (1, 1))
  ∧ (∃ ws' h', prepend_row (Some []) ws h = ((ws', h'), None)
       ∧ rows h' ws' = [[]] ∧ dim h' ws' = Ok (1, 0))
  ∧ (∀ row, row ≠ [] →
       prepend_row (Some row) ws h
       = ((ws, h),
          Some (Exc SpreadsheetError
            (VStr ("Worksheet and supplied row width inconsistent ("
                   +:+ pretty 0 +:+ " vs. " +:+ pretty (length row)
                   +:+ ")"))))).
Proof.
  intros Hd.
  assert (wf h ws) as Hwf by (unfold wf; rewrite Hd; constructor).
  assert (∀ r, rows (h ++ [r]) (mkWorksheet (name ws) [length h]) = [r])
    as Hrows.
  { intros r. unfold rows. simpl. by rewrite row_at_app_new. }
  split; [|split].
  - unfold prepend_row. rewrite Hd. do 2 eexists. split; [reflexivity|].
    simpl. split; [apply Hrows|].
    apply dim_rectangular; [done|]. unfold rectangular.
    rewrite Hrows. by repeat constructor.
  - unfold prepend_row. rewrite ncol_empty by done. simpl. rewrite Hd.
    do 2 eexists. split; [reflexivity|]. split; [apply Hrows|].
    apply dim_rectangular; [done|]. unfold rectangular.
    rewrite Hrows. by repeat constructor.
  - intros row Hrow. unfold prepend_row. rewrite ncol_empty by done.
    destruct row as [|c row]; [done|]. reflexivity.
Qed.

(** X10.  On a worksheet with rows, all of width [W]: [prepend_row(row)]
    with a row of [W] elements succeeds; the new first row holds the
    elements in order, a [Cell] as it is and any other object wrapped in a
    new cell; the rows that were there follow unchanged, so the worksheet
    stays rectangular, with one more row, and its rows stay distinct
    objects. *)
Theorem prepend_row_fitting (h : heap) (ws : Worksheet) (W : nat)
    (row : list (Cell + pyobj)) :
  wf h ws → data ws ≠ [] → rectangular h ws W → length row = W →
  ∃ ws' h', prepend_row (Some row) ws h = ((ws', h'), None)
    ∧ rows h' ws' = (as_cell <$> row) :: rows h ws
    ∧ rectangular h' ws' W
    ∧ dim h' ws' = Ok (S (len ws), W)
    ∧ wf h' ws'
    ∧ (NoDup (data ws) → NoDup (data ws')).
Proof.
  intros Hwf Hne Hrect Hlen.
  exists (mkWorksheet (name ws) (length h :: data ws)),
         (h ++ [as_cell <$> row]).
  assert (rectangular (h ++ [as_cell <$> row])
            (mkWorksheet (name ws) (length h :: data ws)) W) as Hrect'.
  { unfold rectangular. rewrite rows_prepend by done.
    constructor; [by rewrite length_fmap|done]. }
  split; [|split; [|split; [|split; [|split]]]].
  - unfold prepend_row. rewrite (ncol_rectangular _ _ W) by done.
    by rewrite (proj2 (Nat.eqb_eq _ _) Hlen).
  - by apply rows_prepend.
  - done.
  - by rewrite (dim_rectangular _ _ W).
  - by apply wf_prepend.
  - by apply NoDup_prepend.
Qed.

(** X11.  On a worksheet with two rows of different lengths:
    [prepend_row(row)] raises the table-integrity error, whatever the
    row, and changes nothing; [prepend_row()] does not look at the other
    rows: it succeeds with a blank row as wide as row 0, and the
    worksheet still has rows of different lengths. *)
Theorem prepend_row_ragged (h : heap) (ws : Worksheet) :
  wf h ws → ragged h ws →
  (∀ row, prepend_row (Some row) ws h = ((ws, h), Some inconsistent))
  ∧ ∃ ws' h' row0, prepend_row None ws h = ((ws', h'), None)
      ∧ head (rows h ws) = Some row0
      ∧ rows h' ws' = replicate (length row0) (Cell_init VNone) :: rows h ws
      ∧ ragged h' ws'.
Proof.
  intros Hwf Hrag. split.
  - intros row. unfold prepend_row. by rewrite ncol_ragged.
  - destruct (data ws) as [|l0 ls] eqn:Hd.
    { destruct Hrag as (r1 & _ & H1 & _). unfold rows in H1.
      rewrite Hd in H1. by apply elem_of_nil in H1. }
    exists (mkWorksheet (name ws) (length h :: data ws)),
           (h ++ [replicate (length (row_at h l0)) (Cell_init VNone)]),
           (row_at h l0).
    assert (rows (h ++ [replicate (length (row_at h l0)) (Cell_init VNone)])
              (mkWorksheet (name ws) (length h :: data ws))
            = replicate (length (row_at h l0)) (Cell_init VNone) :: rows h ws)
      as Hrows by by apply rows_prepend.
    split; [|split; [|split]].
    + unfold prepend_row. rewrite Hd. by rewrite fmap_blank.
    + unfold rows. by rewrite Hd.
    + exact Hrows.
    + destruct Hrag as (r1 & r2 & H1 & H2 & Hne).
      exists r1, r2. rewrite Hrows. by repeat split; [right|right|].
Qed.

(** ** Appending a column: rectangular worksheets, shared rows *)

Lemma rectangular_imap_app (f : nat → Cell) (rs : list (list Cell)) W :
  Forall (λ row, length row = W) rs →
  Forall (λ row, length row = S W) (imap (λ i row, row ++ [f i]) rs).
Proof.
  intros Hall. apply Forall_lookup. intros i row Hrow.
  rewrite list_lookup_imap in Hrow.
  destruct (rs !! i) as [r|] eqn:Hr; [|done]. injection Hrow as <-.
  rewrite length_app. simpl.
  rewrite Forall_lookup in Hall. rewrite (Hall i r Hr). lia.
Qed.

Lemma wf_append_col header h ws :
  wf h ws → wf (append_col_loop header 0 (data ws) h) ws.
Proof. unfold wf. by rewrite append_col_loop_length. Qed.

(** X12.  On a worksheet with rows, all of width [W] and distinct
    objects, [append_col(header)] gives every row one more cell at its
    end (the header value in row 0, a blank cell in the others) and
    changes no other cell: the worksheet is rectangular of width [W + 1]
    with as many rows, and its headers are the old ones followed by the
    string of the header cell. *)
Theorem append_col_rectangular (header : pyobj) (h : heap) (ws : Worksheet)
    (W : nat) :
  wf h ws → NoDup (data ws) → data ws ≠ [] → rectangular h ws W →
  ∃ h', append_col header ws h = (h', None)
    ∧ rows h' ws
      = imap (λ i row, row ++ [new_col_cell header i]) (rows h ws)
    ∧ rectangular h' ws (S W)
    ∧ dim h' ws = Ok (len ws, S W)
    ∧ column_headers h' ws
      = column_headers h ws ++ [cell_str (Cell_init header)]
    ∧ wf h' ws.
Proof.
  intros Hwf Hnd Hne Hrect. eexists. split; [reflexivity|].
  set (h' := append_col_loop header 0 (data ws) h).
  assert (rows h' ws
          = imap (λ i row, row ++ [new_col_cell header i]) (rows h ws))
    as Hrows.
  { unfold rows, h'. by rewrite append_col_loop_rows. }
  assert (rectangular h' ws (S W)) as Hrect'.
  { unfold rectangular. rewrite Hrows. by apply rectangular_imap_app. }
  split; [done|]. split; [done|]. split; [by apply dim_rectangular|].
  split; [|by apply wf_append_col].
  unfold column_headers. destruct (data ws) as [|l0 ls] eqn:Hd; [done|].
  unfold rows in Hrows. rewrite Hd in Hrows. simpl in Hrows.
  injection Hrows as Hl0 _. rewrite Hl0. by rewrite fmap_app.
Qed.

Lemma append_col_loop_count header (l : loc) rest : ∀ i (h : heap),
  l < length h →
  ∃ cells, row_at (append_col_loop header i rest h) l = row_at h l ++ cells
    ∧ length cells = length (filter (λ l', l' = l) rest).
Proof.
  induction rest as [|l' rest IH]; intros i h Hl; simpl.
  - exists []. by rewrite app_nil_r.
  - destruct (IH (S i) (alter (λ row, row ++ [new_col_cell header i]) l' h))
      as (cells & Hcells & Hlen); [by rewrite length_alter|].
    rewrite filter_cons. destruct (decide (l' = l)) as [->|Hne].
    + exists (new_col_cell header i :: cells).
      split; [|by simpl; rewrite Hlen].
      unfold new_col_cell in *. rewrite Hcells, row_at_alter by done.
      by rewrite <- app_assoc.
    + exists cells. split; [|done].
      unfold new_col_cell in *. rewrite Hcells. f_equal.
      by apply row_at_alter_ne.
Qed.

(** X13.  [append_col] appends to the row objects, once for every place a
    row has in the worksheet: a row object that stands at [k] places gets
    [k] cells at its end, and a row object of the store that is not in
    the worksheet is left as it was.  Nothing else changes and no
    exception is raised. *)
Theorem append_col_per_occurrence (header : pyobj) (h : heap)
    (ws : Worksheet) (l : loc) :
  l < length h →
  ∃ h' cells, append_col header ws h = (h', None)
    ∧ length h' = length h
    ∧ row_at h' l = row_at h l ++ cells
    ∧ length cells = length (filter (λ l', l' = l) (data ws)).
Proof.
  intros Hl.
  destruct (append_col_loop_count header l (data ws) 0 h Hl)
    as (cells & Hcells & Hlen).
  exists (append_col_loop header 0 (data ws) h), cells.
  split; [reflexivity|]. split; [apply append_col_loop_length|done].
Qed.

(** ** Pairs of columns: any rectangular worksheet, and what is never
    yielded *)

Lemma py_getitem_nat {A} kind (l : list A) k x :
  l !! k = Some x → py_getitem kind l (Z.of_nat k) = Ok x.
Proof.
  intros Hk. pose proof (lookup_lt_Some _ _ _ Hk) as Hlt.
  destruct (py_getitem_valid kind l (Z.of_nat k)) as (y & Hy & ->);
    [by apply valid_index_nat|].
  rewrite position_nat in Hy. congruence.
Qed.

Lemma descriptors_lookup hs i row k d :
  descriptors hs i row !! k = Some d
  ↔ ∃ hd c, hs !! k = Some hd ∧ row !! k = Some c
      ∧ d = CellData.mk i (Z.of_nat k) hd c.
Proof.
  unfold descriptors. rewrite list_lookup_imap.
  destruct (zip hs row !! k) as [[hd c]|] eqn:Hz; simpl.
  - apply lookup_zip_with_Some in Hz as (hd' & c' & [= <- <-] & Hhd & Hc).
    split.
    + intros [= <-]. by exists hd, c.
    + intros (hd' & c' & Hhd' & Hc' & ->). congruence.
  - split; [done|]. intros (hd & c & Hhd & Hc & _).
    apply lookup_zip_with_None in Hz as [Hz|Hz]; congruence.
Qed.

Lemma descriptors_length hs i row :
  length (descriptors hs i row) = length hs `min` length row.
Proof. unfold descriptors. by rewrite length_imap, length_zip. Qed.

Lemma cell_data_descriptor hs i row k d :
  descriptors hs i row !! k = Some d →
  cell_data hs i row (Z.of_nat k) = Ok d.
Proof.
  intros Hd. apply descriptors_lookup in Hd as (hd & c & Hhd & Hc & ->).
  unfold cell_data.
  by rewrite (py_getitem_nat _ _ _ _ Hhd), (py_getitem_nat _ _ _ _ Hc).
Qed.

(** The loop over the columns from [k] on yields the base descriptor with
    each descriptor from [k] on. *)
Lemma pairs_of_row_from hs i row b n : ∀ k,
  k + n = length (descriptors hs i row) →
  pairs_of_row hs i row b (Z.of_nat <$> seq k n)
  = ((λ o, (b, o)) <$> drop k (descriptors hs i row), None).
Proof.
  induction n as [|n IH]; intros k Hk; cbn [seq fmap list_fmap pairs_of_row].
  - rewrite drop_ge by lia. done.
  - destruct (lookup_lt_is_Some_2 (descriptors hs i row) k) as [d Hd];
      [lia|].
    rewrite (cell_data_descriptor _ _ _ _ _ Hd).
    rewrite (IH (S k)) by lia.
    by rewrite (drop_S _ _ _ Hd).
Qed.

Lemma pairs_loop_default hs W start rs : ∀ i,
  0 < W → length hs = W → Forall (λ row, length row = W) rs →
  pairs_loop hs 0 (Z.of_nat <$> seq 1 (W - 1)) start i rs
  = (concat (imap (λ k row,
               if (Z.of_nat (i + k) <? start)%Z then []
               else row_pairs hs (i + k) row) rs), None).
Proof.
  intros i HW Hhs Hrs. revert i.
  induction Hrs as [|row rs Hrow Hrs IH]; intros i; [done|].
  cbn [pairs_loop imap concat]. rewrite Nat.add_0_r.
  rewrite (imap_ext (λ k row0,
             if (Z.of_nat (i + S k) <? start)%Z then []
             else row_pairs hs (i + S k) row0)
           (λ k row0,
             if (Z.of_nat (S i + k) <? start)%Z then []
             else row_pairs hs (S i + k) row0)).
  2:{ intros k r _. simpl. by rewrite Nat.add_succ_r. }
  change ((λ k row0, if (Z.of_nat (i + k) <? start)%Z then []
                     else row_pairs hs (i + k) row0) ∘ S)
    with (λ k row0, if (Z.of_nat (i + S k) <? start)%Z then []
                    else row_pairs hs (i + S k) row0).
  destruct (Z.of_nat i <? start)%Z; [by rewrite IH|].
  assert (length (descriptors hs i row) = W) as Hlen
    by (rewrite descriptors_length; lia).
  unfold row_pairs.
  destruct (descriptors hs i row) as [|b others] eqn:Hds;
    [simpl in Hlen; lia|].
  assert (cell_data hs i row 0 = Ok b) as ->
    by (apply (cell_data_descriptor hs i row 0 b); by rewrite Hds).
  rewrite (pairs_of_row_from hs i row b (W - 1) 1)
    by (rewrite Hds, <- Hlen; simpl; lia).
  by rewrite Hds, IH.
Qed.

Lemma concat_imap_nil {A B} (f : nat → A → list B) (l : list A) :
  (∀ i x, x ∈ l → f i x = []) → concat (imap f l) = [].
Proof.
  revert f. induction l as [|x l IH]; intros f Hf; [done|].
  simpl. rewrite (Hf 0 x) by by left. simpl.
  apply IH. intros i y Hy. apply Hf. by right.
Qed.

(** X14.  On a worksheet whose rows all have the same width,
    [column_pairs()] with default [indices] and [base] yields, for each
    row from [start] on, in row order, the descriptor of the first
    column paired with the descriptor of each other column, in column
    order, and then ends; nothing is yielded when there is no row or
    just one column. *)
Theorem column_pairs_default (h : heap) (ws : Worksheet) (W : nat)
    (start : Z) :
  rectangular h ws W →
  column_pairs None None start h ws
  = (concat (imap (λ i row,
               if (Z.of_nat i <? start)%Z then []
               else row_pairs (column_headers h ws) i row) (rows h ws)),
     None).
Proof.
  intros Hrect. unfold column_pairs.
  destruct (data ws) as [|l0 ls] eqn:Hd.
  - rewrite ncol_empty by done. unfold rows. by rewrite Hd.
  - rewrite (ncol_rectangular _ _ W) by (by rewrite Hd || done).
    cbn [mbind result_bind].
    assert (length (column_headers h ws) = W) as Hhs.
    { unfold column_headers. rewrite Hd, length_fmap.
      unfold rectangular, rows in Hrect. rewrite Hd in Hrect.
      by apply Forall_inv in Hrect. }
    destruct W as [|W].
    + simpl. rewrite concat_imap_nil; [done|]. intros i row Hrow.
      destruct (Z.of_nat i <? start)%Z; [done|].
      unfold rectangular in Hrect. rewrite Forall_forall in Hrect.
      apply Hrect in Hrow. destruct row; [|done].
      unfold row_pairs, descriptors.
      by destruct (column_headers h ws).
    + cbn [seq fmap list_fmap].
      replace (Z.of_nat <$> seq 1 W) with (Z.of_nat <$> seq 1 (S W - 1))
        by (f_equal; f_equal; lia).
      by rewrite (pairs_loop_default _ (S W)) by (lia || done).
Qed.
Lemma existsb_eqb_elem (x : Z) (l : list Z) :
  existsb (Z.eqb x) l = true ↔ x ∈ l.
Proof.
  rewrite existsb_exists. split.
  - intros (y & Hy & Hxy). apply Z.eqb_eq in Hxy as ->.
    by apply list_elem_of_In.
  - intros Hx. exists x. split; [by apply list_elem_of_In|apply Z.eqb_refl].
Qed.

Lemma resolve_index_raise hs i e :
  resolve_index hs i = Raise e → e = not_in_tuple.
Proof.
  unfold resolve_index, tuple_index. destruct (isinstance_int i); [done|].
  destruct i; try (by intros [= <-]).
  destruct (index_of s hs); [done|by intros [= <-]].
Qed.

(** The resolved indices have no duplicate. *)
Lemma resolve_indices_spec hs l : ∀ res,
  NoDup res →
  match resolve_indices hs l res with
  | Ok res' => NoDup res'
  | Raise e => e = not_in_tuple
  end.
Proof.
  induction l as [|i l IH]; intros res Hres; simpl; [done|].
  destruct (resolve_index hs i) as [item|e] eqn:Hi; simpl;
    [|by eapply resolve_index_raise].
  apply IH. destruct (existsb (Z.eqb item) res) eqn:Hin; [done|].
  apply NoDup_app. split; [done|]. split; [|apply NoDup_singleton].
  intros x Hx Hx'. apply list_elem_of_singleton in Hx' as ->.
  apply existsb_eqb_elem in Hx. congruence.
Qed.

Lemma remove_first_subset x y l : y ∈ remove_first x l → y ∈ l.
Proof.
  induction l as [|z l IH]; simpl; [done|].
  destruct (Z.eqb_spec z x) as [->|Hne]; [by right|].
  intros Hy. apply elem_of_cons in Hy as [->|Hy]; [by left|].
  right. by apply IH.
Qed.

Lemma remove_first_gone x l : NoDup l → x ∉ remove_first x l.
Proof.
  induction 1 as [|z l Hz Hl IH]; simpl; [apply not_elem_of_nil|].
  destruct (Z.eqb_spec z x) as [->|Hne]; [done|].
  apply not_elem_of_cons. split; [congruence|done].
Qed.

Lemma cell_data_ok hs i row j d :
  cell_data hs i row j = Ok d → CellData.row d = i ∧ CellData.col d = j.
Proof.
  unfold cell_data. destruct (py_getitem "tuple" hs j); [|done]. simpl.
  destruct (py_getitem "list" row j); [|done]. simpl. by intros [= <-].
Qed.

Lemma py_getitem_raise {A} kind (l : list A) j e :
  py_getitem kind l j = Raise e → e = index_error kind.
Proof.
  unfold py_getitem. destruct (_ && _); [|by intros [= <-]].
  destruct (l !! _); [done|by intros [= <-]].
Qed.

Lemma cell_data_raise hs i row j e :
  cell_data hs i row j = Raise e → ∃ kind, e = index_error kind.
Proof.
  unfold cell_data. destruct (py_getitem "tuple" hs j) eqn:Hh; simpl.
  - destruct (py_getitem "list" row j) eqn:Hr; [done|]. simpl.
    intros [= <-]. eexists. by eapply py_getitem_raise.
  - intros [= <-]. eexists. by eapply py_getitem_raise.
Qed.

Lemma t_seq_elem {A} (t1 t2 : trace A) x :
  x ∈ (t_seq t1 t2).1 → x ∈ t1.1 ∨ x ∈ t2.1.
Proof.
  unfold t_seq. destruct t1 as [ys [e|]]; simpl; [by left|].
  by rewrite elem_of_app.
Qed.

Lemma t_seq_raise {A} (t1 t2 : trace A) e :
  (t_seq t1 t2).2 = Some e → t1.2 = Some e ∨ t2.2 = Some e.
Proof.
  unfold t_seq. destruct t1 as [ys [e'|]]; simpl; [by left|by right].
Qed.

Lemma pairs_of_row_elem hs i row b idx b' o :
  (b', o) ∈ (pairs_of_row hs i row b idx).1 →
  b' = b ∧ CellData.col o ∈ idx ∧ CellData.row o = i.
Proof.
  induction idx as [|j idx IH]; simpl; [by intros ?%elem_of_nil|].
  destruct (cell_data hs i row j) as [d|e] eqn:Hd; simpl;
    [|by intros ?%elem_of_nil].
  apply cell_data_ok in Hd as [Hrow Hcol].
  intros Hin. apply elem_of_cons in Hin as [[= -> ->]|Hin].
  - split; [done|]. split; [rewrite Hcol; by left|done].
  - destruct (IH Hin) as (-> & Hc & Hr). split; [done|].
    split; [by right|done].
Qed.

Lemma pairs_of_row_raise hs i row b idx e :
  (pairs_of_row hs i row b idx).2 = Some e → ∃ kind, e = index_error kind.
Proof.
  induction idx as [|j idx IH]; simpl; [done|].
  destruct (cell_data hs i row j) as [d|e'] eqn:Hd; simpl; [done|].
  intros [= <-]. by eapply cell_data_raise.
Qed.

Lemma pairs_loop_elem hs base idx start rs : ∀ i b o,
  (b, o) ∈ (pairs_loop hs base idx start i rs).1 →
  CellData.col b = base ∧ CellData.col o ∈ idx
  ∧ CellData.row o = CellData.row b
  ∧ (start ≤ Z.of_nat (CellData.row b))%Z
  ∧ i ≤ CellData.row b < i + length rs.
Proof.
  induction rs as [|row rs IH]; intros i b o; simpl;
    [by intros ?%elem_of_nil|].
  destruct (Z.ltb_spec (Z.of_nat i) start) as [Hlt|Hge].
  - intros Hin. destruct (IH _ _ _ Hin) as (? & ? & ? & ? & ?).
    repeat split; try done; lia.
  - destruct (cell_data hs i row base) as [bd|e] eqn:Hbd; simpl;
      [|by intros ?%elem_of_nil].
    apply cell_data_ok in Hbd as [Hrow Hcol].
    intros Hin. apply t_seq_elem in Hin as [Hin|Hin].
    + apply pairs_of_row_elem in Hin as (-> & Hc & Hr).
      repeat split; try done; try congruence; lia.
    + destruct (IH _ _ _ Hin) as (? & ? & ? & ? & ?).
      repeat split; try done; lia.
Qed.

Lemma pairs_loop_raise hs base idx start rs : ∀ i e,
  (pairs_loop hs base idx start i rs).2 = Some e →
  ∃ kind, e = index_error kind.
Proof.
  induction rs as [|row rs IH]; intros i e; simpl; [done|].
  destruct (Z.of_nat i <? start)%Z; [apply IH|].
  destruct (cell_data hs i row base) as [bd|e'] eqn:Hbd; simpl.
  - intros Hr. apply t_seq_raise in Hr as [Hr|Hr].
    + by eapply pairs_of_row_raise.
    + by eapply IH.
  - intros [= <-]. by eapply cell_data_raise.
Qed.

(** What [column_pairs] does before its loop: it raises, or ends at once,
    or starts the loop with a base that is not among the indices. *)
Lemma column_pairs_setup indices base start h ws :
  (∃ e, column_pairs indices base start h ws = ([], Some e)
        ∧ (e = not_in_tuple ∨ indices = None ∧ e = inconsistent))
  ∨ column_pairs indices base start h ws = ([], None)
  ∨ ∃ b idx, (b ∉ idx)
      ∧ column_pairs indices base start h ws
        = pairs_loop (column_headers h ws) b idx start 0 (rows h ws).
Proof.
  unfold column_pairs.
  set (hs := column_headers h ws).
  assert (match (match indices with
                 | None => n ← ncol h ws; Ok (Z.of_nat <$> seq 0 n)
                 | Some l => resolve_indices hs l []
                 end) with
          | Ok idx => NoDup idx
          | Raise e => e = not_in_tuple ∨ indices = None ∧ e = inconsistent
          end) as Hidx.
  { destruct indices as [l|].
    - pose proof (resolve_indices_spec hs l [] (NoDup_nil_2)) as Hl.
      destruct (resolve_indices hs l []); [done|by left].
    - destruct (shape_cases h ws) as [Hd|[(w & Hne & Hrect)|Hrag]].
      + rewrite ncol_empty by done. simpl. constructor.
      + rewrite (ncol_rectangular _ _ w) by done. simpl.
        apply NoDup_fmap; [apply _|apply NoDup_seq].
      + rewrite ncol_ragged by done. simpl. by right. }
  destruct (match indices with
            | None => _
            | Some l => _
            end) as [idx|e]; cbn [mbind result_bind].
  - destruct idx as [|first others]; [by right; left|].
    apply NoDup_cons in Hidx as [Hfirst Hothers].
    destruct base as [b|].
    + destruct (resolve_index hs b) as [bz|e] eqn:Hb; cbn [mbind result_bind].
      * right; right. exists bz, (remove_first bz (first :: others)).
        split; [|done]. apply remove_first_gone. by apply NoDup_cons.
      * left. exists e. split; [done|]. left. by eapply resolve_index_raise.
    + right; right. by exists first, others.
  - left. by exists e.
Qed.

(** X15.  With default [indices], [column_pairs] on a worksheet with two
    rows of different lengths raises the table-integrity error before it
    yields anything.  With [indices] given the widths are never
    compared: whatever the worksheet, the only exceptions are the
    [ValueError] of a name that is no header and the [IndexError] of a
    position that a row or the headers do not have. *)
Theorem column_pairs_integrity (h : heap) (ws : Worksheet) :
  (ragged h ws → ∀ base start,
     column_pairs None base start h ws = ([], Some inconsistent))
  ∧ (∀ l base start e,
       (column_pairs (Some l) base start h ws).2 = Some e →
       e = not_in_tuple ∨ ∃ kind, e = index_error kind).
Proof.
  split.
  - intros Hrag base start. unfold column_pairs. by rewrite ncol_ragged.
  - intros l base start e He.
    destruct (column_pairs_setup (Some l) base start h ws)
      as [(e' & Hcp & [->|[? _]])|[Hcp|(b & idx & _ & Hcp)]];
      rewrite Hcp in He; try done.
    + left. by injection He as <-.
    + right. by eapply pairs_loop_raise.
Qed.

Lemma resolve_index_unknown hs s :
  s ∉ hs → resolve_index hs (VStr s) = Raise not_in_tuple.
Proof.
  intros Hs. unfold resolve_index, tuple_index. simpl.
  by rewrite (proj2 (index_of_None _ _) Hs).
Qed.

Lemma resolve_indices_raise_at hs pre x post e : ∀ res,
  Forall (λ i, is_ok (resolve_index hs i) = true) pre →
  resolve_index hs x = Raise e →
  resolve_indices hs (pre ++ x :: post) res = Raise e.
Proof.
  intros res Hpre Hx. revert res.
  induction Hpre as [|i pre Hi Hpre IH]; intros res; simpl.
  - by rewrite Hx.
  - destruct (resolve_index hs i); [|done]. simpl. apply IH.
Qed.

(** X17.  A name that is no column header makes [column_pairs] raise the
    [ValueError] of [tuple.index] before it yields anything (where
    [column] raises [KeyError]): as an entry of [indices], when the
    entries before it resolve, and as [base], when the worksheet has rows
    and columns.  When [indices] is empty the iteration just ends, and
    [base] is not looked at. *)
Theorem column_pairs_unknown_name (h : heap) (ws : Worksheet) (s : string) :
  s ∉ column_headers h ws →
  (∀ pre post base start,
     Forall (λ i, is_ok (resolve_index (column_headers h ws) i) = true) pre →
     column_pairs (Some (pre ++ VStr s :: post)) base start h ws
     = ([], Some not_in_tuple))
  ∧ (∀ W start, data ws ≠ [] → rectangular h ws (S W) →
       column_pairs None (Some (VStr s)) start h ws
       = ([], Some not_in_tuple))
  ∧ (∀ start, column_pairs (Some []) (Some (VStr s)) start h ws = ([], None)).
Proof.
  intros Hs. split; [|split].
  - intros pre post base start Hpre. unfold column_pairs.
    rewrite (resolve_indices_raise_at _ pre (VStr s) post not_in_tuple);
      [done|done|by apply resolve_index_unknown].
  - intros W start Hne Hrect. unfold column_pairs.
    rewrite (ncol_rectangular _ _ (S W)) by done. simpl.
    by rewrite resolve_index_unknown.
  - done.
Qed.

(** ** One column: the same column by name, by index, from the end *)

Lemma py_getitem_negative {A} kind (l : list A) (k : nat) :
  k < length l →
  py_getitem kind l (Z.of_nat k - Z.of_nat (length l))
  = py_getitem kind l (Z.of_nat k).
Proof.
  intros Hk. unfold py_getitem.
  destruct (Z.ltb_spec (Z.of_nat k - Z.of_nat (length l)) 0); [|lia].
  destruct (Z.ltb_spec (Z.of_nat k) 0); [lia|].
  by replace (Z.of_nat k - Z.of_nat (length l) + Z.of_nat (length l))%Z
    with (Z.of_nat k) by lia.
Qed.

Lemma column_loop_negative W k (rs : list (list Cell)) :
  Forall (λ row, length row = W) rs → k < W →
  column_loop (Z.of_nat k - Z.of_nat W) rs = column_loop (Z.of_nat k) rs.
Proof.
  intros Hall Hk. induction Hall as [|row rs Hrow Hall IH]; simpl; [done|].
  rewrite <- Hrow at 1. rewrite py_getitem_negative by lia.
  by rewrite IH.
Qed.

(** X18.  A column is the same by its header, by its index and, on a
    worksheet whose rows all have width [W], by the index minus [W]
    (counted from the end); [True] and [False] are the indices 1 and
    0. *)
Theorem column_same_by_name_and_index (h : heap) (ws : Worksheet) :
  (∀ s n, index_of s (column_headers h ws) = Some n →
     column (VStr s) h ws = column (VInt (Z.of_nat n)) h ws)
  ∧ (∀ W k, rectangular h ws W → k < W →
       column (VInt (Z.of_nat k - Z.of_nat W)) h ws
       = column (VInt (Z.of_nat k)) h ws)
  ∧ (∀ b, column (VBool b) h ws = column (VInt (bool_to_Z b)) h ws).
Proof.
  split; [|split].
  - intros s n Hn. by rewrite column_str, Hn.
  - intros W k Hrect Hk.
    rewrite (column_int (VInt _) (Z.of_nat k - Z.of_nat W)) by done.
    rewrite (column_int (VInt _) (Z.of_nat k)) by done.
    by apply column_loop_negative.
  - done.
Qed.

(** ** The CSV export: the two modes, other files, raw sheets *)

Lemma writerow_texts (r1 r2 : list pyobj) :
  csv.field_text <$> r1 = csv.field_text <$> r2 →
  csv.writerow r1 = csv.writerow r2.
Proof.
  intros Heq. unfold csv.writerow.
  assert (length r1 = length r2) as ->.
  { by rewrite <- (length_fmap csv.field_text r1), Heq, length_fmap. }
  change (λ v, csv.join_append (csv.field_text v) false)
    with ((λ f, csv.join_append f false) ∘ csv.field_text).
  by rewrite !list_fmap_compose, Heq.
Qed.

(** X19.  The two modes of [to_csv] write the same text: a value the
    writer is handed as it is comes out as the string of its cell.  The
    file at [path] is replaced whatever it held, and no other file
    changes. *)
Theorem to_csv_modes (path : string) (h : heap) (ws : Worksheet)
    (fs : filesystem) (strings : bool) :
  to_csv path false h ws fs = to_csv path true h ws fs
  ∧ (∀ old, to_csv path strings h ws (<[path := old]> fs)
            = to_csv path strings h ws fs)
  ∧ (∀ p, p ≠ path → to_csv path strings h ws fs !! p = fs !! p).
Proof.
  split; [|split].
  - unfold to_csv. do 2 f_equal. apply list_fmap_ext. intros i row _.
    apply writerow_texts. by rewrite !field_text_cell_str.
  - intros old. unfold to_csv. apply insert_insert_eq.
  - intros p Hp. unfold to_csv. by apply lookup_insert_ne.
Qed.

Lemma from_sheet_rows_view sheet datemode h ws' h' :
  from_sheet sheet datemode h = Ok (ws', h') →
  Forall2 (Forall2 (λ c cell, from_cell c datemode true = Ok cell))
    (xlrd.rows sheet) (rows h' ws').
Proof.
  unfold from_sheet. intros Hfs.
  apply from_sheet_rows_ok in Hfs as (new & -> & Hnew & Hdata & _).
  simpl in Hdata. unfold rows. rewrite Hdata. by rewrite rows_of_seq.
Qed.


(** ** Edits and column access together *)

(** X21.  After [prepend_row(row)] with a fitting row, the headers of the
    worksheet are the strings of the new row, and each column is the cell
    of the new row at that index followed by the column as it was. *)
Theorem prepend_row_then_column (h : heap) (ws : Worksheet) (W : nat)
    (row : list (Cell + pyobj)) :
  wf h ws → data ws ≠ [] → rectangular h ws W → length row = W →
  ∃ ws' h', prepend_row (Some row) ws h = ((ws', h'), None)
    ∧ column_headers h' ws' = (λ c, cell_str (as_cell c)) <$> row
    ∧ ∀ z, valid_index W z = true →
        ∃ c, (as_cell <$> row) !! position W z = Some c
          ∧ column (VInt z) h' ws' = t_yield c (column (VInt z) h ws).
Proof.
  intros Hwf Hne Hrect Hlen.
  exists (mkWorksheet (name ws) (length h :: data ws)),
         (h ++ [as_cell <$> row]).
  split; [|split].
  - unfold prepend_row. rewrite (ncol_rectangular _ _ W) by done.
    by rewrite (proj2 (Nat.eqb_eq _ _) Hlen).
  - unfold column_headers. cbn [data]. rewrite row_at_app_new.
    by rewrite <- list_fmap_compose.
  - intros z Hz.
    destruct (py_getitem_valid "list" (as_cell <$> row) z) as (c & Hc & Hget);
      [by rewrite length_fmap, Hlen|].
    rewrite length_fmap, Hlen in Hc. exists c. split; [done|].
    rewrite !(column_int (VInt z) z) by done.
    rewrite rows_prepend by done. simpl. by rewrite Hget.
Qed.

Lemma column_loop_old_column (f : nat → Cell) W k (rs : list (list Cell)) :
  Forall (λ row, length row = W) rs → k < W →
  column_loop (Z.of_nat k) (imap (λ i row, row ++ [f i]) rs)
  = column_loop (Z.of_nat k) rs.
Proof.
  intros Hall Hk. revert f.
  induction Hall as [|row rs Hrow Hall IH]; intros f; [done|].
  cbn [imap column_loop].
  destruct (lookup_lt_is_Some_2 row k) as [c Hc]; [lia|].
  rewrite (py_getitem_nat "list" (row ++ [f 0]) k c)
    by by rewrite lookup_app_l by lia.
  rewrite (py_getitem_nat "list" row k c) by done.
  f_equal. exact (IH (f ∘ S)).
Qed.

Lemma column_loop_new_column (f : nat → Cell) W (rs : list (list Cell)) :
  Forall (λ row, length row = W) rs →
  column_loop (Z.of_nat W) (imap (λ i row, row ++ [f i]) rs)
  = (imap (λ i _, f i) rs, None).
Proof.
  intros Hall. revert f.
  induction Hall as [|row rs Hrow Hall IH]; intros f; [done|].
  cbn [imap column_loop].
  rewrite (py_getitem_nat "list" (row ++ [f 0]) W (f 0)).
  2:{ rewrite lookup_app_r by lia. by rewrite Hrow, Nat.sub_diag. }
  pose proof (IH (f ∘ S)) as IH'. unfold t_yield.
  change (imap ((λ i row0, row0 ++ [f i]) ∘ S) rs)
    with (imap (λ i (row0 : list Cell), row0 ++ [(f ∘ S) i]) rs).
  by rewrite IH'.
Qed.

Lemma index_of_app_new s hs :
  s ∉ hs → index_of s (hs ++ [s]) = Some (length hs).
Proof.
  induction hs as [|y hs IH]; simpl; intros Hs.
  - by rewrite String.eqb_refl.
  - apply not_elem_of_cons in Hs as [Hne Hs].
    destruct (String.eqb_spec y s) as [->|_]; [done|].
    by rewrite IH.
Qed.

(** X22.  After [append_col(header)] on a worksheet with rows, all of
    width [W] and distinct objects: every column that was there is as it
    was; the new column, at index [W], is the header cell followed by
    blank cells; and when the string of the header is not one of the old
    headers, the new column is found under that name. *)
Theorem append_col_then_column (header : pyobj) (h : heap) (ws : Worksheet)
    (W : nat) :
  wf h ws → NoDup (data ws) → data ws ≠ [] → rectangular h ws W →
  ∃ h', append_col header ws h = (h', None)
    ∧ (∀ k, k < W →
         column (VInt (Z.of_nat k)) h' ws = column (VInt (Z.of_nat k)) h ws)
    ∧ column (VInt (Z.of_nat W)) h' ws
      = (imap (λ i _, new_col_cell header i) (rows h ws), None)
    ∧ (cell_str (Cell_init header) ∉ column_headers h ws →
       column (VStr (cell_str (Cell_init header))) h' ws
       = (imap (λ i _, new_col_cell header i) (rows h ws), None)).
Proof.
  intros Hwf Hnd Hne Hrect. eexists. split; [reflexivity|].
  set (h' := append_col_loop header 0 (data ws) h).
  assert (rows h' ws
          = imap (λ i row, row ++ [new_col_cell header i]) (rows h ws))
    as Hrows.
  { unfold rows, h'. by rewrite append_col_loop_rows. }
  assert (column_loop (Z.of_nat W) (rows h' ws)
          = (imap (λ i _, new_col_cell header i) (rows h ws), None)) as Hnew.
  { rewrite Hrows. by apply column_loop_new_column. }
  split; [|split].
  - intros k Hk. rewrite !(column_int (VInt _) (Z.of_nat k)) by done.
    rewrite Hrows. by apply (column_loop_old_column _ W).
  - by rewrite (column_int (VInt _) (Z.of_nat W)).
  - intros Hs. rewrite column_str.
    assert (column_headers h' ws
            = column_headers h ws ++ [cell_str (Cell_init header)]) as ->.
    { unfold column_headers. destruct (data ws) as [|l0 ls] eqn:Hd; [done|].
      unfold rows in Hrows. rewrite Hd in Hrows. simpl in Hrows.
      injection Hrows as Hl0 _. rewrite Hl0. by rewrite fmap_app. }
    rewrite index_of_app_new by done.
    assert (length (column_headers h ws) = W) as ->; [|done].
    unfold column_headers. destruct (data ws) as [|l0 ls] eqn:Hd; [done|].
    rewrite length_fmap. unfold rectangular, rows in Hrect.
    rewrite Hd in Hrect. by apply Forall_inv in Hrect.
Qed.

(** ** Pairs of columns with a chosen base *)

Lemma pairs_of_row_app hs i row b idx1 idx2 :
  pairs_of_row hs i row b (idx1 ++ idx2)
  = t_seq (pairs_of_row hs i row b idx1) (pairs_of_row hs i row b idx2).
Proof.
  induction idx1 as [|j idx1 IH]; simpl.
  - by destruct (pairs_of_row hs i row b idx2).
  - destruct (cell_data hs i row j); [|done].
    rewrite IH. unfold t_seq, t_yield. simpl.
    by destruct (pairs_of_row hs i row b idx1) as [ys [e|]].
Qed.

Lemma pairs_of_row_range hs i row b n : ∀ k,
  k + n ≤ length (descriptors hs i row) →
  pairs_of_row hs i row b (Z.of_nat <$> seq k n)
  = ((λ o, (b, o)) <$> take n (drop k (descriptors hs i row)), None).
Proof.
  induction n as [|n IH]; intros k Hk; cbn [seq fmap list_fmap pairs_of_row].
  - done.
  - destruct (lookup_lt_is_Some_2 (descriptors hs i row) k) as [d Hd];
      [lia|].
    rewrite (cell_data_descriptor _ _ _ _ _ Hd).
    rewrite (IH (S k)) by lia.
    by rewrite (drop_S _ _ _ Hd).
Qed.

Lemma remove_first_seq b n : ∀ k,
  k ≤ b < k + n →
  remove_first (Z.of_nat b) (Z.of_nat <$> seq k n)
  = Z.of_nat <$> (seq k (b - k) ++ seq (S b) (k + n - S b)).
Proof.
  induction n as [|n IH]; intros k Hk; [lia|].
  cbn [seq fmap list_fmap remove_first].
  destruct (Z.eqb_spec (Z.of_nat k) (Z.of_nat b)) as [Heq|Hne].
  - assert (k = b) as -> by lia. rewrite Nat.sub_diag. simpl.
    do 2 f_equal. lia.
  - rewrite (IH (S k)) by lia.
    replace (b - k) with (S (b - S k)) by lia. simpl.
    do 4 f_equal. lia.
Qed.

Lemma pairs_loop_base hs W b start rs : ∀ i,
  b < W → length hs = W → Forall (λ row, length row = W) rs →
  pairs_loop hs (Z.of_nat b)
    (Z.of_nat <$> (seq 0 b ++ seq (S b) (W - S b))) start i rs
  = (concat (imap (λ k row,
               if (Z.of_nat (i + k) <? start)%Z then []
               else base_pairs b (descriptors hs (i + k) row)) rs), None).
Proof.
  intros i Hb Hhs Hrs. revert i.
  induction Hrs as [|row rs Hrow Hrs IH]; intros i; [done|].
  cbn [pairs_loop imap concat]. rewrite Nat.add_0_r.
  rewrite (imap_ext (λ k row0,
             if (Z.of_nat (i + S k) <? start)%Z then []
             else base_pairs b (descriptors hs (i + S k) row0))
           (λ k row0,
             if (Z.of_nat (S i + k) <? start)%Z then []
             else base_pairs b (descriptors hs (S i + k) row0))).
  2:{ intros k r _. simpl. by rewrite Nat.add_succ_r. }
  change ((λ k row0, if (Z.of_nat (i + k) <? start)%Z then []
                     else base_pairs b (descriptors hs (i + k) row0)) ∘ S)
    with (λ k row0, if (Z.of_nat (i + S k) <? start)%Z then []
                    else base_pairs b (descriptors hs (i + S k) row0)).
  destruct (Z.of_nat i <? start)%Z; [by rewrite IH|].
  assert (length (descriptors hs i row) = W) as Hlen
    by (rewrite descriptors_length; lia).
  unfold base_pairs.
  destruct (lookup_lt_is_Some_2 (descriptors hs i row) b) as [bd Hbd];
    [lia|].
  rewrite Hbd, (cell_data_descriptor _ _ _ _ _ Hbd).
  rewrite IH, fmap_app, pairs_of_row_app.
  rewrite (pairs_of_row_range hs i row bd b 0) by lia.
  rewrite (pairs_of_row_range hs i row bd (W - S b) (S b)) by lia.
  unfold t_seq. simpl. do 2 f_equal.
  rewrite <- fmap_app. f_equal.
  rewrite delete_take_drop. f_equal.
  apply take_ge. rewrite length_drop. lia.
Qed.

(** X23.  With a base, given as an index or as a header, and default
    [indices], on a worksheet with rows, all of the same width:
    [column_pairs] yields, for each row from [start] on, the descriptor
    of the base column paired with the descriptor of every other column,
    in column order, and then ends. *)
Theorem column_pairs_with_base (h : heap) (ws : Worksheet) (W b : nat)
    (base : pyobj) (start : Z) :
  data ws ≠ [] → rectangular h ws W → b < W →
  resolve_index (column_headers h ws) base = Ok (Z.of_nat b) →
  column_pairs None (Some base) start h ws
  = (concat (imap (λ i row,
               if (Z.of_nat i <? start)%Z then []
               else base_pairs b (descriptors (column_headers h ws) i row))
             (rows h ws)),
     None).
Proof.
  intros Hne Hrect Hb Hbase. unfold column_pairs.
  rewrite (ncol_rectangular _ _ W) by done. cbn [mbind result_bind].
  assert (length (column_headers h ws) = W) as Hhs.
  { unfold column_headers. destruct (data ws) as [|l0 ls] eqn:Hd; [done|].
    rewrite length_fmap. unfold rectangular, rows in Hrect.
    rewrite Hd in Hrect. by apply Forall_inv in Hrect. }
  destruct W as [|W]; [lia|]. cbn [seq fmap list_fmap].
  rewrite Hbase. cbn [mbind result_bind].
  change (Z.of_nat 0 :: (Z.of_nat <$> seq 1 W))
    with (Z.of_nat <$> seq 0 (S W)).
  rewrite remove_first_seq by lia.
  rewrite Nat.sub_0_r.
  by rewrite (pairs_loop_base _ (S W)) by done.
Qed.
End Properties.

(** * The properties on examples, and where the specification differs *)

#[local] Existing Instance sample_runtime.

(** ** Numeric cells *)

(** 6.0 becomes the integer 6, 2.5 stays the float 2.5. *)
Lemma numeric_cell_value_examples :
  (float_value (S754_finite false 3 1) = Some (6 # 1)%Q
   ∧ cell_value (xlrd.mkCell xlrd.XL_CELL_NUMBER
                   (VFloat (S754_finite false 3 1))) None true
     = Ok (VInt 6))
  ∧ (float_value (S754_finite false 5 (-1)) = Some (5 # 2)%Q
     ∧ from_cell (xlrd.mkCell xlrd.XL_CELL_NUMBER
                    (VFloat (S754_finite false 5 (-1)))) None true
       = Ok (Cell_init (VFloat (S754_finite false 5 (-1))))).
Proof.
  split; (split; [reflexivity|]).
  - exact (proj1 (numeric_cell_value (S754_finite false 3 1) (6 # 1)%Q
                    None true eq_refl)).
  - exact (proj2 (numeric_cell_value (S754_finite false 5 (-1)) (5 # 2)%Q
                    None true eq_refl)).
Defined.

(** C1 as stated fails on a raw float that is not a number: [int] has no
    truncation for it and raises, so the float is not returned. *)
Lemma numeric_cell_nan :
  cell_value (xlrd.mkCell xlrd.XL_CELL_NUMBER (VFloat S754_nan)) None true
  = Raise (Exc ValueError (VStr "cannot convert float NaN to integer"))
  ∧ cell_value (xlrd.mkCell xlrd.XL_CELL_NUMBER (VFloat S754_nan)) None true
    ≠ Ok (VFloat S754_nan).
Proof. split; [reflexivity|discriminate]. Qed.

(** ** Date cells *)

(** Noon of day one in the 1904 system is a combined date and time. *)
Lemma date_cell_value_example :
  xldate_as_tuple (VFloat (S754_finite false 3 (-1))) 1
  = Ok (1904, 1, 2, 12, 0, 0)%Z
  ∧ calendar_tuple (1904, 1, 2, 12, 0, 0)%Z = true
  ∧ cell_value (xlrd.mkCell xlrd.XL_CELL_DATE
                  (VFloat (S754_finite false 3 (-1)))) None true
    = Ok (VDateTime 1904 1 2 12 0 0).
Proof.
  split; [reflexivity|]. split; [reflexivity|].
  destruct (date_cell_value (VFloat (S754_finite false 3 (-1))) None true
              1904 1 2 12 0 0) as (v & Hv & Hcat); [reflexivity..|].
  rewrite Hv. f_equal.
  destruct v; simpl in Hcat; try done; by destruct Hcat as (_ & _ & ->).
Defined.

(** C2 as stated fails on the raw date 0.0, which decodes to the all-zero
    tuple: its time part is all zero, and the value is the time 00:00:00,
    not a date. *)
Lemma date_cell_midnight :
  xldate_as_tuple (VFloat (S754_zero false)) 1 = Ok (0, 0, 0, 0, 0, 0)%Z
  ∧ time_part_zero (0, 0, 0, 0, 0, 0)%Z = true
  ∧ cell_value (xlrd.mkCell xlrd.XL_CELL_DATE (VFloat (S754_zero false)))
      None true
    = Ok (VTime 0 0 0)
  ∧ category (VTime 0 0 0) ≠ Some DateOnly.
Proof. repeat split; reflexivity || discriminate. Qed.

(** ** Dimensions *)

Lemma ragged_sheet_ragged : ragged ragged_heap ragged_sheet.
Proof.
  exists [text_cell "a"], [text_cell "b"; text_cell "c"].
  split; [|split]; [by left|by right; left|done].
Qed.

Lemma abc_sheet_rectangular : rectangular abc_heap abc_sheet 3.
Proof. by repeat constructor. Qed.

Lemma dim_examples :
  dim [] empty_sheet = Ok (0, 0)
  ∧ dim ragged_heap ragged_sheet = Raise inconsistent
  ∧ dim abc_heap abc_sheet = Ok (3, 3).
Proof.
  split; [|split].
  - exact (proj1 (dim_cases [] empty_sheet) eq_refl).
  - exact (proj1 (proj2 (dim_cases ragged_heap ragged_sheet))
             ragged_sheet_ragged).
  - refine (proj2 (proj2 (dim_cases abc_heap abc_sheet)) 3 _
              abc_sheet_rectangular).
    discriminate.
Defined.

(** ** Appending a column *)

Lemma ragged_sheet_wf : wf ragged_heap ragged_sheet.
Proof. repeat constructor. Qed.

Lemma ragged_sheet_NoDup : NoDup (data ragged_sheet).
Proof.
  apply NoDup_cons. split; [|apply NoDup_singleton].
  intros Hin. by apply list_elem_of_singleton in Hin.
Qed.

(** After [append_col] the two rows have two and three cells. *)
Lemma append_col_ragged_example :
  ∃ h', append_col (VStr "h") ragged_sheet ragged_heap = (h', None)
    ∧ rows h' ragged_sheet
      = [[text_cell "a"; text_cell "h"];
         [text_cell "b"; text_cell "c"; Cell_init VNone]]
    ∧ dim h' ragged_sheet = Raise inconsistent.
Proof.
  destruct (append_col_ragged (VStr "h") ragged_heap ragged_sheet
              ragged_sheet_wf ragged_sheet_NoDup ragged_sheet_ragged)
    as (h' & Hcol & Hrows & _ & Hdim).
  exists h'. split; [exact Hcol|]. split; [|exact Hdim].
  rewrite Hrows. reflexivity.
Defined.

(** C4 as stated fails: on a worksheet with a row of one cell and a row of
    two cells [append_col] completes and raises nothing. *)
Lemma append_col_ragged_completes :
  ragged ragged_heap ragged_sheet
  ∧ append_col (VStr "h") ragged_sheet ragged_heap
    = ([[text_cell "a"; text_cell "h"];
        [text_cell "b"; text_cell "c"; Cell_init VNone]], None).
Proof. split; [exact ragged_sheet_ragged|reflexivity]. Qed.

Lemma append_col_empty_example :
  append_col (VStr "h") empty_sheet [] = ([], None)
  ∧ dim [] empty_sheet = Ok (0, 0)
  ∧ column_headers [] empty_sheet = [].
Proof. exact (append_col_empty (VStr "h") [] empty_sheet eq_refl). Defined.

(** ** Prepending a row *)

Lemma abc_sheet_wf : wf abc_heap abc_sheet.
Proof. repeat constructor. Qed.

(** On the three-by-three worksheet: a blank row of three cells comes
    first, and a row of two values is refused. *)
Lemma prepend_row_examples :
  (∃ ws' h', prepend_row None abc_sheet abc_heap = ((ws', h'), None)
     ∧ rows h' ws' = replicate 3 (Cell_init VNone) :: rows abc_heap abc_sheet
     ∧ len ws' = 4)
  ∧ prepend_row (Some [inr (VInt 1); inr (VInt 2)]) abc_sheet abc_heap
    = ((abc_sheet, abc_heap),
       Some (Exc SpreadsheetError
         (VStr "Worksheet and supplied row width inconsistent (3 vs. 2)"))).
Proof.
  assert (data abc_sheet ≠ []) as Hne by discriminate.
  destruct (prepend_row_cases abc_heap abc_sheet 3 abc_sheet_wf Hne
              abc_sheet_rectangular) as [Hblank Hwidth].
  split; [exact Hblank|].
  refine (Hwidth [inr (VInt 1); inr (VInt 2)] _). discriminate.
Defined.

(** ** One column *)



(** ** Pairs of columns *)

Lemma column_pairs_abc_example :
  column_pairs None None 0 abc_heap abc_sheet
  = ([ (CellData.mk 0 0 "A" (text_cell "A"),
        CellData.mk 0 1 "B" (text_cell "B"));
       (CellData.mk 0 0 "A" (text_cell "A"),
        CellData.mk 0 2 "C" (text_cell "C"));
       (CellData.mk 1 0 "A" (Cell_init (VInt 1)),
        CellData.mk 1 1 "B" (Cell_init (VInt 2)));
       (CellData.mk 1 0 "A" (Cell_init (VInt 1)),
        CellData.mk 1 2 "C" (Cell_init (VInt 3)));
       (CellData.mk 2 0 "A" (Cell_init (VInt 4)),
        CellData.mk 2 1 "B" (Cell_init VNone));
       (CellData.mk 2 0 "A" (Cell_init (VInt 4)),
        CellData.mk 2 2 "C" (Cell_init (VBool true))) ], None).
Proof.
  exact (column_pairs_abc abc_heap abc_sheet _ _ _ _ _ _ _ _ _
           eq_refl eq_refl eq_refl eq_refl).
Defined.

(** * Further properties on examples *)

(** ** Cells *)

(** A blank cell of xlrd, tag 6, is refused. *)
Lemma unrecognized_tag_example :
  recognized 6 = false
  ∧ cell_value (xlrd.mkCell xlrd.XL_CELL_BLANK (VStr "")) None true
    = Raise (Exc TypeError
        (VStr ("Unhandled cell exception." +:+ nl +:+ "Type: 6" +:+ nl
               +:+ "Value: "))).
Proof.
  split; [reflexivity|].
  exact (proj1 (unrecognized_tag_raises 6 (VStr "") None true eq_refl)).
Defined.

(** ** Raw sheets *)

Lemma from_sheet_example :
  ∃ ws' h', from_sheet sample_sheet None [] = Ok (ws', h')
    ∧ name ws' = "raw" ∧ len ws' = 2
    ∧ rows h' ws' = [[text_cell "name"; text_cell "n"];
                     [text_cell "a"; Cell_init (VInt 6)]]
    ∧ NoDup (data ws').
Proof.
  eexists _, _. split; [reflexivity|].
  destruct (from_sheet_result sample_sheet None [] _ _ eq_refl)
    as (Hname & Hlen & _ & _ & Hnd & _).
  split; [exact Hname|]. split; [exact Hlen|]. split; [reflexivity|].
  exact Hnd.
Defined.

(** The error cell of the first row stops the conversion of the whole
    sheet. *)
Lemma from_sheet_broken_example :
  from_sheet broken_sheet None [] = Raise (Exc TypeError (VStr error_cell_msg)).
Proof.
  refine (proj2 (from_sheet_all_or_nothing broken_sheet None [])
            [] [xlrd.mkCell xlrd.XL_CELL_TEXT (VStr "name")]
            (xlrd.mkCell xlrd.XL_CELL_ERROR (VInt 42)) [] _ _
            eq_refl _ _ eq_refl).
  - constructor.
  - by repeat constructor.
Defined.


(** ** Prepending a row *)

Lemma prepend_row_empty_sheet_example :
  (∃ ws' h', prepend_row None empty_sheet [] = ((ws', h'), None)
     ∧ dim h' ws' = Ok (1, 1))
  ∧ prepend_row (Some [inr (VInt 1)]) empty_sheet []
    = ((empty_sheet, []),
       Some (Exc SpreadsheetError
         (VStr "Worksheet and supplied row width inconsistent (0 vs. 1)"))).
Proof.
  destruct (prepend_row_empty_sheet [] empty_sheet eq_refl)
    as ((ws' & h' & Hp & _ & Hdim) & _ & Hrefuse).
  split; [by exists ws', h'|].
  refine (Hrefuse [inr (VInt 1)] _). discriminate.
Defined.

Lemma abc_sheet_nonempty : data abc_sheet ≠ [].
Proof. discriminate. Qed.

Lemma abc_sheet_NoDup : NoDup (data abc_sheet).
Proof.
  apply NoDup_cons. split.
  { intros Hin. apply elem_of_cons in Hin as [?|Hin]; [done|].
    by apply list_elem_of_singleton in Hin. }
  apply NoDup_cons. split; [|apply NoDup_singleton].
  intros Hin. by apply list_elem_of_singleton in Hin.
Qed.

Lemma prepend_row_fitting_example :
  ∃ ws' h',
    prepend_row (Some [inl (text_cell "x"); inr (VInt 7); inr VNone])
      abc_sheet abc_heap = ((ws', h'), None)
    ∧ head (rows h' ws')
      = Some [text_cell "x"; Cell_init (VInt 7); Cell_init VNone]
    ∧ dim h' ws' = Ok (4, 3).
Proof.
  destruct (prepend_row_fitting abc_heap abc_sheet 3
              [inl (text_cell "x"); inr (VInt 7); inr VNone]
              abc_sheet_wf abc_sheet_nonempty abc_sheet_rectangular eq_refl)
    as (ws' & h' & Hp & Hrows & _ & Hdim & _).
  exists ws', h'. split; [exact Hp|]. split; [by rewrite Hrows|exact Hdim].
Defined.

Lemma prepend_row_ragged_example :
  prepend_row (Some [inr (VInt 1)]) ragged_sheet ragged_heap
  = ((ragged_sheet, ragged_heap), Some inconsistent).
Proof.
  exact (proj1 (prepend_row_ragged ragged_heap ragged_sheet
                  ragged_sheet_wf ragged_sheet_ragged) [inr (VInt 1)]).
Defined.

Lemma prepend_row_then_column_example :
  ∃ ws' h',
    prepend_row (Some [inr (VStr "X"); inr (VStr "Y"); inr (VStr "Z")])
      abc_sheet abc_heap = ((ws', h'), None)
    ∧ column_headers h' ws' = ["X"; "Y"; "Z"]
    ∧ column (VInt 1) h' ws'
      = ([text_cell "Y"; text_cell "B"; Cell_init (VInt 2); Cell_init VNone],
         None).
Proof.
  destruct (prepend_row_then_column abc_heap abc_sheet 3
              [inr (VStr "X"); inr (VStr "Y"); inr (VStr "Z")]
              abc_sheet_wf abc_sheet_nonempty abc_sheet_rectangular eq_refl)
    as (ws' & h' & Hp & Hhs & Hcol).
  exists ws', h'. split; [exact Hp|]. split; [exact Hhs|].
  destruct (Hcol 1%Z eq_refl) as (c & Hc & ->).
  injection Hc as <-. reflexivity.
Defined.

(** ** Appending a column *)

Lemma append_col_rectangular_example :
  ∃ h', append_col (VStr "D") abc_sheet abc_heap = (h', None)
    ∧ dim h' abc_sheet = Ok (3, 4)
    ∧ column_headers h' abc_sheet = ["A"; "B"; "C"; "D"].
Proof.
  destruct (append_col_rectangular (VStr "D") abc_heap abc_sheet 3
              abc_sheet_wf abc_sheet_NoDup abc_sheet_nonempty
              abc_sheet_rectangular)
    as (h' & Hcol & _ & _ & Hdim & Hhs & _).
  exists h'. split; [exact Hcol|]. split; [exact Hdim|exact Hhs].
Defined.

(** The row that stands twice in the worksheet gets two cells. *)
Lemma append_col_shared_row_example :
  ∃ h', append_col (VStr "h") shared_sheet shared_heap = (h', None)
    ∧ row_at h' 0 = [text_cell "a"; text_cell "h"; Cell_init VNone].
Proof.
  assert (0 < length shared_heap) as Hl by (simpl; lia).
  destruct (append_col_per_occurrence (VStr "h") shared_heap shared_sheet 0
              Hl) as (h' & cells & Hcol & _ & Hrow & Hlen).
  exists h'. split; [exact Hcol|].
  injection Hcol as <-. reflexivity.
Defined.

Lemma append_col_then_column_example :
  ∃ h', append_col (VStr "D") abc_sheet abc_heap = (h', None)
    ∧ column (VInt 1) h' abc_sheet = column (VInt 1) abc_heap abc_sheet
    ∧ column (VStr "D") h' abc_sheet
      = ([text_cell "D"; Cell_init VNone; Cell_init VNone], None).
Proof.
  destruct (append_col_then_column (VStr "D") abc_heap abc_sheet 3
              abc_sheet_wf abc_sheet_NoDup abc_sheet_nonempty
              abc_sheet_rectangular)
    as (h' & Hcol & Hold & _ & Hname).
  exists h'. split; [exact Hcol|]. split.
  - refine (Hold 1 _). lia.
  - refine (Hname _). apply index_of_None. reflexivity.
Defined.

(** ** Pairs of columns *)

(** From row 1 on, the three-by-three worksheet gives four pairs. *)
Lemma column_pairs_default_example :
  column_pairs None None 1 abc_heap abc_sheet
  = ([ (CellData.mk 1 0 "A" (Cell_init (VInt 1)),
        CellData.mk 1 1 "B" (Cell_init (VInt 2)));
       (CellData.mk 1 0 "A" (Cell_init (VInt 1)),
        CellData.mk 1 2 "C" (Cell_init (VInt 3)));
       (CellData.mk 2 0 "A" (Cell_init (VInt 4)),
        CellData.mk 2 1 "B" (Cell_init VNone));
       (CellData.mk 2 0 "A" (Cell_init (VInt 4)),
        CellData.mk 2 2 "C" (Cell_init (VBool true))) ], None).
Proof.
  exact (column_pairs_default abc_heap abc_sheet 3 1 abc_sheet_rectangular).
Defined.

(** With the base B, each row pairs B with A and then with C. *)
Lemma column_pairs_with_base_example :
  column_pairs None (Some (VStr "B")) 2 abc_heap abc_sheet
  = ([ (CellData.mk 2 1 "B" (Cell_init VNone),
        CellData.mk 2 0 "A" (Cell_init (VInt 4)));
       (CellData.mk 2 1 "B" (Cell_init VNone),
        CellData.mk 2 2 "C" (Cell_init (VBool true))) ], None).
Proof.
  refine (column_pairs_with_base abc_heap abc_sheet 3 1 (VStr "B") 2
            abc_sheet_nonempty abc_sheet_rectangular _ eq_refl).
  lia.
Defined.

Lemma column_pairs_unknown_name_example :
  column_pairs (Some [VInt 0; VStr "D"]) None 0 abc_heap abc_sheet
  = ([], Some not_in_tuple)
  ∧ column_pairs None (Some (VStr "D")) 0 abc_heap abc_sheet
    = ([], Some not_in_tuple).
Proof.
  assert ("D" ∉ column_headers abc_heap abc_sheet) as Hd
    by (apply index_of_None; reflexivity).
  destruct (column_pairs_unknown_name abc_heap abc_sheet "D" Hd)
    as (Hidx & Hbase & _).
  split.
  - refine (Hidx [VInt 0] [] None 0%Z _). by repeat constructor.
  - exact (Hbase 2 0%Z abc_sheet_nonempty abc_sheet_rectangular).
Defined.
